(** * pay402-axios: the 402 response interceptor of [src/index.ts]

    A shallow embedding of [withPay402Interceptor] and of the failure
    handler it registers, with the properties of its option extraction,
    of its payment delegation and of the single retry.

    Conventions of the embedding.
    - A JavaScript string is its sequence of UTF-16 code units.
    - A JavaScript object used as a dictionary (the header set, the
      [extra] metadata) is a finite map keyed by strings.
    - The failure handler is an [async] function that suspends on two
      external calls, the payer callback and the reissued request.  It is
      embedded as a finite tree of such calls ([prog]); the contents of the
      error object, which the handler mutates, are threaded explicitly. *)

From Stdlib Require Import ZArith NArith List Ascii String Lia Bool.
From stdpp Require Import base option list countable gmap.

Local Open Scope N_scope.

(** ** JavaScript strings *)

Module JsString.

Definition code_unit := N.
Definition jsstring := list code_unit.

(** An ASCII literal as a JavaScript string. *)
Definition js (s : string) : jsstring :=
  map N_of_ascii (list_ascii_of_string s).

(** Truthiness of a string value: every string but the empty one. *)
Definition truthy (s : jsstring) : bool :=
  match s with
  | [] => false
  | _ :: _ => true
  end.

Fixpoint startsWith (s prefix : jsstring) {struct prefix} : bool :=
  match prefix, s with
  | [], _ => true
  | p :: prefix', c :: s' => (c =? p) && startsWith s' prefix'
  | _ :: _, [] => false
  end.

(** [String.prototype.includes]: some position of [s] starts with
    [target]. *)
Fixpoint includes (s target : jsstring) : bool :=
  startsWith s target ||
  match s with
  | [] => false
  | _ :: s' => includes s' target
  end.

End JsString.
Export JsString.

(** ** Regular expressions

  The backtracking matcher of ECMAScript, for the constructs that the
  pattern of [src/index.ts] uses: a character, a greedy [+] over a
  character class, a sequence, and a capture group.  A matcher
  takes the state, the rest of the input and the capture made so far,
  and a continuation for what follows in the pattern; a failure of the
  continuation makes a greedy [+] give back a character. *)

Module Regex.

Inductive regex : Type :=
| Eps
| Chr (c : code_unit)
| PlusCls (p : code_unit -> bool)
| Cat (r1 r2 : regex)
| Grp (r : regex).

Definition mstate : Type := jsstring * option jsstring.

Section Matcher.
Context {A : Type}.

(** The iterations of a greedy [p+] after the first one: take one more
    character when possible, and continue with the pattern only when
    that fails. *)
Fixpoint more (p : code_unit -> bool) (s : jsstring)
    (cap : option jsstring) (k : mstate -> option A) : option A :=
  match s with
  | c :: s' =>
      if p c then
        match more p s' cap k with
        | Some a => Some a
        | None => k (s, cap)
        end
      else k (s, cap)
  | [] => k (s, cap)
  end.

Fixpoint run (r : regex) (st : mstate) (k : mstate -> option A)
    : option A :=
  match r with
  | Eps => k st
  | Chr c =>
      match st.1 with
      | x :: s' => if x =? c then k (s', st.2) else None
      | [] => None
      end
  | PlusCls p =>
      match st.1 with
      | x :: s' => if p x then more p s' st.2 k else None
      | [] => None
      end
  | Cat r1 r2 => run r1 st (fun st' => run r2 st' k)
  | Grp r1 =>
      run r1 st (fun st' =>
        k (st'.1, Some (take (length st.1 - length st'.1) st.1)))
  end.
End Matcher.

(** A match anchored at the start of [s]: the capture of group 1. *)
Definition matchAt (r : regex) (s : jsstring) : option (option jsstring) :=
  run r (s, None) (fun st => Some st.2).

(** [RegExp.prototype.exec] without the [g] flag: the match at the
    leftmost position that has one. *)
Fixpoint exec (r : regex) (s : jsstring) : option (option jsstring) :=
  match matchAt r s with
  | Some caps => Some caps
  | None =>
      match s with
      | [] => None
      | _ :: s' => exec r s'
      end
  end.

(** A literal word as a sequence of characters. *)
Fixpoint lit (w : jsstring) : regex :=
  match w with
  | [] => Eps
  | c :: w' => Cat (Chr c) (lit w')
  end.

(** [\d] *)
Definition digit (c : code_unit) : bool := (48 <=? c) && (c <=? 57).

(** [\s]: WhiteSpace and LineTerminator of ECMAScript. *)
Definition space (c : code_unit) : bool :=
  (9 <=? c) && (c <=? 13) || (c =? 32) || (c =? 160) || (c =? 5760)
  || (8192 <=? c) && (c <=? 8202) || (c =? 8232) || (c =? 8233)
  || (c =? 8239) || (c =? 8287) || (c =? 12288) || (c =? 65279).

(** [[\d.]] *)
Definition digitOrDot (c : code_unit) : bool := digit c || (c =? 46).

(** What a pattern matches, declaratively: [sem r w c c'] when [r]
    matches exactly the word [w] and turns the capture [c] into [c']. *)
Inductive sem : regex -> jsstring -> option jsstring -> option jsstring
    -> Prop :=
| sem_eps c : sem Eps [] c c
| sem_chr x c : sem (Chr x) [x] c c
| sem_plus p w c : w <> [] -> Forall (fun x => p x = true) w ->
    sem (PlusCls p) w c c
| sem_cat r1 r2 w1 w2 c c1 c2 : sem r1 w1 c c1 -> sem r2 w2 c1 c2 ->
    sem (Cat r1 r2) (w1 ++ w2) c c2
| sem_grp r w c c1 : sem r w c c1 -> sem (Grp r) w c (Some w).

End Regex.

(** ** The data of [src/types.ts]

    A field typed [string] is a string.  A field typed [any] that the
    code reads as a dictionary ([extra]) is an optional finite map, [None]
    standing for [null] or [undefined]. *)

Abbreviation dict := (gmap jsstring jsstring).

Module PaymentOption.
Record t : Type := mk {
  amount : jsstring;
  currency : jsstring;
  payTo : jsstring
}.
End PaymentOption.

Module Pay402Accept.
Record t : Type := mk {
  scheme : jsstring;
  network : jsstring;
  maxAmountRequired : jsstring;
  resource : jsstring;
  description : jsstring;
  mimeType : jsstring;
  payTo : jsstring;
  maxTimeoutSeconds : Z;
  asset : jsstring;
  outputSchema : option dict;
  extra : option dict
}.
End Pay402Accept.

(** The handler tests [data.accepts] before it reads it, so the list may
    be absent. *)
Module Pay402Response.
Record t : Type := mk {
  x402Version : Z;
  error : jsstring;
  accepts : option (list Pay402Accept.t)
}.
End Pay402Response.

(** ** The objects of the HTTP client that the handler reads and writes

    [config], [response], [response.data] and [config.headers] are tested
    for presence by the handler, so each may be absent.  A response has
    the fields that the handler reads.  In the client [response.config] is
    the object [error.config] once more; it is not a field of the response
    here, and the write of lines 70-73 is recorded on [error.config]
    alone. *)

Module RequestConfig.
Record t : Type := mk {
  method : jsstring;
  url : jsstring;
  data : option jsstring;
  headers : option dict
}.
End RequestConfig.

Module AxiosResponse.
Record t : Type := mk {
  status : Z;
  statusText : jsstring;
  data : option Pay402Response.t
}.
End AxiosResponse.

Module AxiosError.
Record t : Type := mk {
  message : jsstring;
  code : jsstring;
  config : option RequestConfig.t;
  response : option AxiosResponse.t
}.
End AxiosError.

(** A client instance, by reference. *)
Definition instance := N.

(** How a promise settles. *)
Inductive settled (A R : Type) : Type :=
| Resolved (a : A)
| Rejected (r : R).
Arguments Resolved {A R} a.
Arguments Rejected {A R} r.

(** ** Option extraction, [src/index.ts] lines 26-60 *)

Import Regex.

Definition targetDescription : jsstring :=
  js "PAY402 is detected on this server for gas-free transfers".

(** [/Send\s+([\d.]+)\s+PAY/] *)
Definition sendPay : regex :=
  Cat (lit (js "Send"))
    (Cat (PlusCls space)
      (Cat (Grp (PlusCls digitOrDot))
        (Cat (PlusCls space) (lit (js "PAY"))))).

(** [x || y] on strings, [x] possibly [undefined]. *)
Definition orElse (x : option jsstring) (y : jsstring) : jsstring :=
  match x with
  | Some s => if truthy s then s else y
  | None => y
  end.

(** Lines 28-37: the entry that [data.accepts.find] returns, when [data],
    [data.accepts] and a matching entry exist. *)
Definition acceptOption (data : option Pay402Response.t)
    : option Pay402Accept.t :=
  match data with
  | Some d =>
      match Pay402Response.accepts d with
      | Some accepts =>
          if (0 <? length accepts)%nat then
            List.find (fun opt =>
                truthy (Pay402Accept.description opt)
                && includes (Pay402Accept.description opt) targetDescription)
              accepts
          else None
      | None => None
      end
  | None => None
  end.

(** Lines 44-51: the option of rule 1, if any. *)
Definition payOption (a : Pay402Accept.t) : list PaymentOption.t :=
  match exec sendPay (Pay402Accept.description a) with
  | Some (Some amount) =>
      if truthy amount then
        [ PaymentOption.mk amount (js "PAY") (Pay402Accept.payTo a) ]
      else []
  | _ => []
  end.

(** Lines 54-60: the option of rule 2, if any. *)
Definition assetOption (a : Pay402Accept.t) : list PaymentOption.t :=
  if truthy (Pay402Accept.maxAmountRequired a) && truthy (Pay402Accept.asset a)
  then
    [ PaymentOption.mk
        (Pay402Accept.maxAmountRequired a)
        (orElse (Pay402Accept.extra a ≫= (.!! js "name"))
                (Pay402Accept.asset a))
        (Pay402Accept.payTo a) ]
  else [].

(** Lines 40-60: [pricing] after both pushes. *)
Definition pricing (a : Pay402Accept.t) : list PaymentOption.t :=
  payOption a ++ assetOption a.

(** ** The failure handler, [src/index.ts] lines 22-86 *)

Section Interceptor.

(** The response of a request; the values that a collaborator rejects
    with; the payer callback, by reference. *)
Context {Resp Exn Callback : Type}.

(** What the handler rejects with: the error object it was given, or a
    value that came from a collaborator. *)
Inductive reason : Type :=
| OriginalError
| Foreign (x : Exn).

(** The result of the handler: how its promise settles, and the contents
    of the error object when the handler's own code has finished. *)
Record outcome : Type := mkOutcome {
  settlement : settled Resp reason;
  errorAfter : AxiosError.t
}.

(** The handler as a tree: it finishes, or it suspends on a call of the
    payer callback or of [axiosInstance.request] and goes on with what the
    call settled to. *)
Inductive prog : Type :=
| Return (o : outcome)
| AwaitSign (signTransaction : Callback)
    (options : list PaymentOption.t) (resource : jsstring)
    (k : settled jsstring Exn -> prog)
| AwaitRequest (axiosInstance : instance) (config : RequestConfig.t)
    (k : settled Resp Exn -> prog).

(** [Promise.reject(error)], line 85. *)
Definition passThrough (error : AxiosError.t) : prog :=
  Return (mkOutcome (Rejected OriginalError) error).

(** What the handler's promise becomes when the handler returns the
    promise of the retry. *)
Definition adopt (r : settled Resp Exn) : settled Resp reason :=
  match r with
  | Resolved response => Resolved response
  | Rejected x => Rejected (Foreign x)
  end.

(** Lines 70-73 on the request configuration. *)
Definition setPay402Header (config : RequestConfig.t)
    (transactionId : jsstring) : RequestConfig.t :=
  let headers :=
    match RequestConfig.headers config with
    | Some h => h
    | None => ∅
    end in
  RequestConfig.mk
    (RequestConfig.method config)
    (RequestConfig.url config)
    (RequestConfig.data config)
    (Some (<[js "x-pay402" := transactionId]> headers)).

(** The same assignment seen from the error object. *)
Definition withConfig (error : AxiosError.t) (config : RequestConfig.t)
    : AxiosError.t :=
  AxiosError.mk
    (AxiosError.message error)
    (AxiosError.code error)
    (Some config)
    (AxiosError.response error).

(** Lines 63-79: what follows the call of the payer callback. *)
Definition afterSign (axiosInstance : instance) (error : AxiosError.t)
    (signed : settled jsstring Exn) : prog :=
  match signed with
  | Resolved transactionId =>
      match AxiosError.config error with
      | Some config =>
          let config' := setPay402Header config transactionId in
          AwaitRequest axiosInstance config' (fun retried =>
            Return (mkOutcome (adopt retried) (withConfig error config')))
      | None => passThrough error
      end
  | Rejected signError =>
      Return (mkOutcome (Rejected (Foreign signError)) error)
  end.

Definition rejectedHandler (axiosInstance : instance)
    (signTransaction : Callback) (error : AxiosError.t) : prog :=
  match AxiosError.response error with
  | Some response =>
      if (AxiosResponse.status response =? 402)%Z then
        match acceptOption (AxiosResponse.data response) with
        | Some accept =>
            if (0 <? length (pricing accept))%nat then
              AwaitSign signTransaction (pricing accept)
                (Pay402Accept.resource accept)
                (afterSign axiosInstance error)
            else passThrough error
        | None => passThrough error
        end
      else passThrough error
  | None => passThrough error
  end.

(** ** Running a handler against its collaborators

    The collaborators answer each call; the run records the calls made, in
    order. *)

Inductive event : Type :=
| SignCalled (signTransaction : Callback)
    (options : list PaymentOption.t) (resource : jsstring)
| RequestIssued (axiosInstance : instance) (config : RequestConfig.t).

Record collaborators : Type := mkCollaborators {
  payer : Callback -> list PaymentOption.t -> jsstring
          -> settled jsstring Exn;
  transport : instance -> RequestConfig.t -> settled Resp Exn
}.

Fixpoint perform (w : collaborators) (p : prog) : list event * outcome :=
  match p with
  | Return o => ([], o)
  | AwaitSign f options resource k =>
      let '(trace, o) := perform w (k (payer w f options resource)) in
      (SignCalled f options resource :: trace, o)
  | AwaitRequest ax config k =>
      let '(trace, o) := perform w (k (transport w ax config)) in
      (RequestIssued ax config :: trace, o)
  end.

Definition isSign (e : event) : bool :=
  match e with
  | SignCalled _ _ _ => true
  | RequestIssued _ _ => false
  end.

Definition isRequest (e : event) : bool := negb (isSign e).

(** ** Setup, [src/index.ts] lines 6-90 *)

Record Interceptor : Type := mkInterceptor {
  onFulfilled : Resp -> Resp;
  onRejected : AxiosError.t -> prog
}.

(** The response interceptors of every client instance, in the order of
    their registration. *)
Definition registry : Type := instance -> list Interceptor.

(** [axiosInstance.interceptors.response.use(onFulfilled, onRejected)]:
    the registration point of the HTTP client. *)
Definition use (axiosInstance : instance) (h : Interceptor)
    (clients : registry) : registry :=
  fun i => if decide (i = axiosInstance) then clients i ++ [h]
           else clients i.

(** The order in which a chain where the last registered runs first
    offers a failure to the interceptors of an instance. *)
Definition lastRegisteredFirst (clients : registry) (i : instance)
    : list Interceptor :=
  rev (clients i).

(** The fallback collaborator [withPaymentInterceptor] of [x402-axios],
    which is outside this repository: whatever it does to the clients. *)
Context {Wallet : Type}.
Variable withPaymentInterceptor : instance -> Wallet -> registry -> registry.

Definition ownInterceptor (axiosInstance : instance)
    (signTransaction : Callback) : Interceptor :=
  mkInterceptor (fun response => response)
    (rejectedHandler axiosInstance signTransaction).

Definition withPay402Interceptor (axiosInstance : instance)
    (signTransaction : Callback) (walletClient : Wallet)
    (clients : registry) : registry * instance :=
  let clients1 := withPaymentInterceptor axiosInstance walletClient clients in
  let clients2 :=
    use axiosInstance (ownInterceptor axiosInstance signTransaction) clients1 in
  (clients2, axiosInstance).

End Interceptor.

Arguments reason : clear implicits.
Arguments outcome : clear implicits.
Arguments prog : clear implicits.
Arguments event : clear implicits.
Arguments collaborators : clear implicits.
Arguments Interceptor : clear implicits.
Arguments registry : clear implicits.

(** ** Vocabulary of the properties *)

(** [description] holds, somewhere, the word [Send], white space, the
    non-empty run [amount] of digits and points, white space, and the
    word [PAY]. *)
Definition sendPayOccurrence (description amount : jsstring) : Prop :=
  exists before ws1 ws2 after,
    description
      = before ++ js "Send" ++ ws1 ++ amount ++ ws2 ++ js "PAY" ++ after
    /\ ws1 <> [] /\ Forall (fun c => space c = true) ws1
    /\ amount <> [] /\ Forall (fun c => digitOrDot c = true) amount
    /\ ws2 <> [] /\ Forall (fun c => space c = true) ws2.

(** A decimal number in the strict sense: digits and at most one point. *)
Definition atMostOnePoint (amount : jsstring) : bool :=
  forallb digitOrDot amount && (count_occ N.eq_dec amount 46%N <=? 1)%nat.

(** The description of an entry carries the marker. *)
Definition marked (a : Pay402Accept.t) : bool :=
  includes (Pay402Accept.description a) targetDescription.

(** [error] is a 402 whose challenge has [a] as the entry that the handler
    selects. *)
Definition matched402 (error : AxiosError.t) (a : Pay402Accept.t) : Prop :=
  exists response,
    AxiosError.response error = Some response
    /\ AxiosResponse.status response = 402%Z
    /\ acceptOption (AxiosResponse.data response) = Some a.

(** The option list in the words of the specification, where the currency
    of the second option is [extra.name] whenever that field is present. *)
Definition statedOptions (a : Pay402Accept.t) (parsed : jsstring)
    : list PaymentOption.t :=
  [ PaymentOption.mk parsed (js "PAY") (Pay402Accept.payTo a);
    PaymentOption.mk
      (Pay402Accept.maxAmountRequired a)
      (match Pay402Accept.extra a ≫= (.!! js "name") with
       | Some name => name
       | None => Pay402Accept.asset a
       end)
      (Pay402Accept.payTo a) ].

(** The options and the resource of the call of the payer callback that a
    handler starts with, if it starts with one. *)
Definition firstCall {Resp Exn Callback} (p : prog Resp Exn Callback)
    : option (list PaymentOption.t * jsstring) :=
  match p with
  | AwaitSign _ options resource _ => Some (options, resource)
  | _ => None
  end.

(** ** Concrete scenarios

    Scenario A and scenario B are those of [test/verify.ts]; the others
    vary scenario A.  The handlers below run with a response that is its
    status code, with strings as the values that collaborators reject
    with, and with a single payer callback. *)

Module Scenario.

Definition descriptionA : jsstring :=
  js "PAY402 is detected on this server for gas-free transfers. Send 0.066 PAY or the USDC amount via 100Pay Internal transfer.".

Definition payToA : jsstring := js "0x37ffc90BDb5B0c3aCF8beCCCe4AA7e7d74ab38Ba".

Definition usdc : jsstring := js "0x833589fCD6eDb6E08f4c7C32D4f71b54bdA02913".

Definition acceptA : Pay402Accept.t :=
  Pay402Accept.mk (js "exact") (js "base") (js "14000")
    (js "http://localhost:3000/api/pay-for-order") descriptionA (js "")
    payToA 60 usdc None
    (Some (<[js "name" := js "USD Coin"]> (<[js "version" := js "2"]> ∅))).

Definition acceptB : Pay402Accept.t :=
  Pay402Accept.mk (js "exact") (js "base") (js "100")
    (js "http://localhost:3000/api/other")
    (js "Standard x402 payment required.") (js "")
    (js "0x123...") 60 (js "0x...") (Some ∅) (Some ∅).

(** Scenario A with an [extra.name] that is the empty string. *)
Definition acceptEmptyName : Pay402Accept.t :=
  Pay402Accept.mk (js "exact") (js "base") (js "14000")
    (js "http://localhost:3000/api/pay-for-order")
    (js "PAY402 is detected on this server for gas-free transfers. Send 1 PAY.")
    (js "") payToA 60 usdc None (Some (<[js "name" := js ""]> ∅)).

(** A marked entry whose amount has two points. *)
Definition acceptTwoPoints : Pay402Accept.t :=
  Pay402Accept.mk (js "exact") (js "base") (js "") (js "/r")
    (js "PAY402 is detected on this server for gas-free transfers. Send 1.2.3 PAY")
    (js "") payToA 60 (js "") None None.

(** A marked entry from which neither rule derives an option. *)
Definition acceptNoOption : Pay402Accept.t :=
  Pay402Accept.mk (js "exact") (js "base") (js "14000") (js "/r")
    (js "PAY402 is detected on this server for gas-free transfers.")
    (js "") payToA 60 (js "") None None.

Definition configA : RequestConfig.t :=
  RequestConfig.mk (js "get") (js "/protected-resource-custom") None
    (Some (<[js "Accept" := js "application/json"]> ∅)).

Definition failure (config : option RequestConfig.t) (status : Z)
    (accepts : list Pay402Accept.t) : AxiosError.t :=
  AxiosError.mk (js "Request failed with status code 402")
    (js "ERR_BAD_REQUEST") config
    (Some (AxiosResponse.mk status (js "Payment Required")
       (Some (Pay402Response.mk 1 (js "X-PAYMENT header is required")
          (Some accepts))))).

Definition errorA : AxiosError.t := failure (Some configA) 402 [acceptA].
Definition errorB : AxiosError.t := failure (Some configA) 402 [acceptB].
Definition errorBA : AxiosError.t :=
  failure (Some configA) 402 [acceptB; acceptA; acceptEmptyName].
Definition errorEmptyName : AxiosError.t :=
  failure (Some configA) 402 [acceptEmptyName].
Definition errorNoOption : AxiosError.t :=
  failure (Some configA) 402 [acceptB; acceptNoOption].
Definition errorNoConfig : AxiosError.t := failure None 402 [acceptA].
Definition errorTwoPoints : AxiosError.t :=
  failure (Some configA) 402 [acceptTwoPoints].
Definition error500 : AxiosError.t := failure (Some configA) 500 [acceptA].

(** A payer that pays, and a server that then answers 200. *)
Definition paying : collaborators Z jsstring unit :=
  mkCollaborators (fun _ _ _ => Resolved (js "valid-tx-id"))
    (fun _ _ => Resolved 200%Z).

(** A payer that declines. *)
Definition declining : collaborators Z jsstring unit :=
  mkCollaborators (fun _ _ _ => Rejected (js "declined"))
    (fun _ _ => Resolved 200%Z).

(** A payer that pays, and a server that answers the same 402 again:
    the reissued request fails with an error like the first one. *)
Definition insisting : collaborators Z AxiosError.t unit :=
  mkCollaborators (fun _ _ _ => Resolved (js "valid-tx-id"))
    (fun _ _ => Rejected errorA).

(** A fallback that registers one interceptor of its own. *)
Definition fallbackInterceptor : Interceptor Z jsstring unit :=
  mkInterceptor (fun response => response) passThrough.

Definition fallback (axiosInstance : instance) (walletClient : unit)
    (clients : registry Z jsstring unit) : registry Z jsstring unit :=
  use axiosInstance fallbackInterceptor clients.

End Scenario.

(** ** Vocabulary of the further properties *)

(** An occurrence as in [sendPayOccurrence], with the text before it. *)
Definition sendPayAt (description before amount : jsstring) : Prop :=
  exists ws1 ws2 after,
    description
      = before ++ js "Send" ++ ws1 ++ amount ++ ws2 ++ js "PAY" ++ after
    /\ ws1 <> [] /\ Forall (fun c => space c = true) ws1
    /\ amount <> [] /\ Forall (fun c => digitOrDot c = true) amount
    /\ ws2 <> [] /\ Forall (fun c => space c = true) ws2.

(** The names of the headers of a request configuration. *)
Definition headerNames (config : RequestConfig.t) : gset jsstring :=
  match RequestConfig.headers config with
  | Some headers => dom headers
  | None => ∅
  end.

(** Further scenarios, around scenario A. *)
Module MoreScenarios.
Import Scenario.

(** A marked entry with the pattern and without an asset. *)
Definition acceptPayOnly : Pay402Accept.t :=
  Pay402Accept.mk (js "exact") (js "base") (js "14000") (js "/pay-only")
    (js "PAY402 is detected on this server for gas-free transfers. Send 2.5 PAY")
    (js "") payToA 60 (js "") None None.

(** A marked entry with an asset and without the pattern. *)
Definition acceptAssetOnly : Pay402Accept.t :=
  Pay402Accept.mk (js "exact") (js "base") (js "14000") (js "/asset-only")
    (js "PAY402 is detected on this server for gas-free transfers.")
    (js "") payToA 60 usdc None None.

(** Two occurrences of the pattern. *)
Definition acceptTwice : Pay402Accept.t :=
  Pay402Accept.mk (js "exact") (js "base") (js "") (js "/twice")
    (js "Send 1 PAY or Send 2 PAY") (js "") payToA 60 (js "") None None.

Definition errorPayOnly : AxiosError.t :=
  failure (Some configA) 402 [acceptB; acceptPayOnly].
Definition errorAssetOnly : AxiosError.t :=
  failure (Some configA) 402 [acceptAssetOnly; acceptA].

(** A configuration that already carries a token. *)
Definition configPaid : RequestConfig.t :=
  RequestConfig.mk (js "get") (js "/protected-resource-custom") None
    (Some (<[js "x-pay402" := js "old-tx-id"]>
             (<[js "Accept" := js "application/json"]> ∅))).

End MoreScenarios.

(** ** A request through the instance *)

(** What a request through the instance rejects with: an error object, or
    a value that the payer callback rejected with. *)
Inductive thrown (PayerExn : Type) : Type :=
| ErrorObject (error : AxiosError.t)
| Raised (x : PayerExn).
Arguments ErrorObject {PayerExn} error.
Arguments Raised {PayerExn} x.

Section Pipeline.
Context {Resp PayerExn Callback : Type}.

(** The answers of the payer callback. *)
Variable payerAnswers :
  Callback -> list PaymentOption.t -> jsstring -> settled jsstring PayerExn.

Definition raised (signed : settled jsstring PayerExn)
    : settled jsstring (thrown PayerExn) :=
  match signed with
  | Resolved transactionId => Resolved transactionId
  | Rejected x => Rejected (Raised x)
  end.

(** How the promise of a handler settles for the one who awaits it. *)
Definition settles (o : outcome Resp (thrown PayerExn))
    : settled Resp (thrown PayerExn) :=
  match settlement o with
  | Resolved response => Resolved response
  | Rejected OriginalError => Rejected (ErrorObject (errorAfter o))
  | Rejected (Foreign x) => Rejected x
  end.

(** A run of a handler whose reissued requests are answered by [request],
    which reports the calls made while it answered; [None] when [request]
    has no answer. *)
Fixpoint performThrough
    (request : instance -> RequestConfig.t
               -> option (list (event Callback)
                          * settled Resp (thrown PayerExn)))
    (p : prog Resp (thrown PayerExn) Callback)
    : option (list (event Callback)
              * outcome Resp (thrown PayerExn)) :=
  match p with
  | Return o => Some ([], o)
  | AwaitSign f options resource k =>
      match performThrough request
              (k (raised (payerAnswers f options resource))) with
      | Some (trace, o) => Some (SignCalled f options resource :: trace, o)
      | None => None
      end
  | AwaitRequest axiosInstance config k =>
      match request axiosInstance config with
      | Some (retry, retried) =>
          match performThrough request (k retried) with
          | Some (trace, o) =>
              Some (RequestIssued axiosInstance config :: retry ++ trace, o)
          | None => None
          end
      | None => None
      end
  end.

(** Modelled from the spec: the request operation of the HTTP client
    (axios), which is not under [src/].  Section 6 of the specification
    asks of the client a re-issue operation that replays a request
    configuration through the same instance, and a registration point
    whose failure handlers receive the failures of the instance.  The
    instance here has the interceptor that the setup registers as its only
    response interceptor.  [server] lists the answers to the successive
    requests, each a function of the configuration received; a success is
    returned as it is (the success handler of line 21 is the identity); a
    failure is given to the failure handler of lines 22-86, whose reissue
    on line 74 is again a request through the instance.  The result is
    [None] when the requests outnumber the answers of [server]. *)
Fixpoint requestThrough
    (server : list (RequestConfig.t -> settled Resp AxiosError.t))
    (signTransaction : Callback) (axiosInstance : instance)
    (config : RequestConfig.t)
    : option (list (event Callback)
              * settled Resp (thrown PayerExn)) :=
  match server with
  | [] => None
  | answer :: later =>
      match answer config with
      | Resolved response => Some ([], Resolved response)
      | Rejected error =>
          match performThrough (requestThrough later signTransaction)
                  (rejectedHandler axiosInstance signTransaction error) with
          | Some (trace, o) => Some (trace, settles o)
          | None => None
          end
      end
  end.

End Pipeline.

(** A server that answers scenario A to the first two requests, whatever
    their headers, and 200 to the third. *)
Module Insisting.
Import Scenario.

Definition challengeA (config : RequestConfig.t)
    : settled Z AxiosError.t :=
  Rejected (failure (Some config) 402 [acceptA]).

Definition server : list (RequestConfig.t -> settled Z AxiosError.t) :=
  [ challengeA; challengeA; fun _ => Resolved 200%Z ].

Definition payerPays (f : unit) (options : list PaymentOption.t)
    (resource : jsstring) : settled jsstring jsstring :=
  Resolved (js "valid-tx-id").

End Insisting.
(** * Properties

    ** Strings and patterns *)

Lemma startsWith_spec s prefix :
  startsWith s prefix = true <-> exists rest, s = prefix ++ rest.
Proof.
  revert s; induction prefix as [|p prefix IH]; intros s; simpl.
  - split; [intros _; by exists s | reflexivity].
  - destruct s as [|c s]; simpl.
    + split; [discriminate | intros [rest H]; discriminate].
    + rewrite andb_true_iff, N.eqb_eq, IH. split.
      * intros [-> [rest ->]]. eauto.
      * intros [rest H]. injection H as -> ->. eauto.
Qed.

Lemma includes_spec s target :
  includes s target = true <->
  exists before after, s = before ++ target ++ after.
Proof.
  induction s as [|c s IH]; simpl; rewrite orb_true_iff, startsWith_spec.
  - split.
    + intros [[rest H] | H]; [|discriminate]. exists [], rest. exact H.
    + intros (before & after & H). left.
      destruct before; [eauto | discriminate].
  - rewrite IH. split.
    + intros [[rest H] | (before & after & H)].
      * exists [], rest. exact H.
      * exists (c :: before), after. simpl. by rewrite H.
    + intros (before & after & H). destruct before as [|b before].
      * left. eauto.
      * right. injection H as _ ->. eauto.
Qed.

Import Regex.

Lemma more_sound {A} p s cap (k : mstate -> option A) a :
  more p s cap k = Some a ->
  exists w s', s = w ++ s' /\ Forall (fun x => p x = true) w
               /\ k (s', cap) = Some a.
Proof.
  induction s as [|c s IH]; simpl.
  - intros H. exists [], []. auto.
  - destruct (p c) eqn:Hc.
    + destruct (more p s cap k) as [a'|] eqn:Hm.
      * intros [= ->]. destruct (IH eq_refl) as (w & s' & -> & Hw & Hk).
        exists (c :: w), s'. auto.
      * intros Hk. exists [], (c :: s). auto.
    + intros Hk. exists [], (c :: s). auto.
Qed.

Lemma more_complete {A} p w s' cap (k : mstate -> option A) :
  Forall (fun x => p x = true) w -> is_Some (k (s', cap)) ->
  is_Some (more p (w ++ s') cap k).
Proof.
  intros Hw Hk. induction Hw as [|c w Hc Hw IH]; simpl.
  - destruct s' as [|c s']; simpl; [done|].
    destruct (p c); [|done]. destruct (more p s' cap k); [eauto | done].
  - rewrite Hc. destruct IH as [a ->]. eauto.
Qed.

Lemma run_sound {A} r s c (k : mstate -> option A) a :
  run r (s, c) k = Some a ->
  exists w s' c', s = w ++ s' /\ sem r w c c' /\ k (s', c') = Some a.
Proof.
  revert A s c k a.
  induction r as [|x|p|r1 IH1 r2 IH2|r IH]; intros A s c k a; simpl.
  - intros H. exists [], s, c. split_and!; [done | constructor | done].
  - destruct s as [|y s]; [done|]. destruct (N.eqb_spec y x) as [->|]; [|done].
    intros H. exists [x], s, c. split_and!; [done | constructor | done].
  - destruct s as [|y s]; [done|]. destruct (p y) eqn:Hy; [|done].
    intros (w & s' & -> & Hw & Hk)%more_sound.
    exists (y :: w), s', c. split_and!; [done | constructor; auto | done].
  - intros (w1 & s1 & c1 & -> & H1 & (w2 & s2 & c2 & -> & H2 & Hk)%IH2)%IH1.
    exists (w1 ++ w2), s2, c2.
    split_and!; [by rewrite <- app_assoc | econstructor; eauto | done].
  - intros (w & s' & c' & -> & Hr & Hk)%IH. simpl in Hk.
    exists w, s', (Some w). split_and!; [done | econstructor; eauto |].
    rewrite length_app in Hk.
    replace (length w + length s' - length s')%nat with (length w) in Hk
      by lia.
    by rewrite take_app_length in Hk.
Qed.

Lemma run_complete {A} r w c c' :
  sem r w c c' -> forall s' (k : mstate -> option A),
  is_Some (k (s', c')) -> is_Some (run r (w ++ s', c) k).
Proof.
  induction 1 as [c|x c|p w c Hne Hw|r1 r2 w1 w2 c c1 c2 _ IH1 _ IH2
                 |r w c c1 _ IH]; intros s' k Hk; simpl.
  - done.
  - by rewrite N.eqb_refl.
  - destruct Hw as [|y w Hy Hw]; [done|]. simpl. rewrite Hy.
    by apply more_complete.
  - rewrite <- app_assoc. apply IH1, IH2, Hk.
  - apply IH. simpl. rewrite length_app.
    replace (length w + length s' - length s')%nat with (length w) by lia.
    by rewrite take_app_length.
Qed.

Lemma exec_sound r s caps :
  exec r s = Some caps ->
  exists before w after, s = before ++ w ++ after /\ sem r w None caps.
Proof.
  induction s as [|x s IH]; simpl.
  - destruct (matchAt r []) as [c|] eqn:Hm; [|done]. intros [= ->].
    apply run_sound in Hm as (w & s' & c' & Hs & Hr & [= ->]).
    exists [], w, s'. eauto.
  - destruct (matchAt r (x :: s)) as [c|] eqn:Hm.
    + intros [= ->].
      apply run_sound in Hm as (w & s' & c' & Hs & Hr & [= ->]).
      exists [], w, s'. eauto.
    + intros (before & w & after & -> & Hr)%IH.
      exists (x :: before), w, after. eauto.
Qed.

Lemma exec_complete r before w after caps :
  sem r w None caps -> is_Some (exec r (before ++ w ++ after)).
Proof.
  intros Hr. induction before as [|x before IH]; simpl.
  - assert (is_Some (matchAt r (w ++ after))) as [c Hc]
      by (apply (run_complete r w None caps Hr); simpl; eauto).
    destruct (w ++ after); simpl; rewrite Hc; eauto.
  - destruct (matchAt r (x :: before ++ w ++ after)); eauto.
Qed.


Lemma sem_lit w w' c c' : sem (lit w) w' c c' <-> w' = w /\ c' = c.
Proof.
  revert w' c c'. induction w as [|x w IH]; intros w' c c'; simpl.
  - split.
    + inversion 1; auto.
    + intros [-> ->]. constructor.
  - split.
    + inversion 1 as [| | |r1 r2 w1 w2 c0 c1 c2 H1 H2|]; subst.
      inversion H1; subst. apply IH in H2 as [-> ->]. auto.
    + intros [-> ->]. change (x :: w) with ([x] ++ w).
      econstructor; [constructor | by apply IH].
Qed.

Lemma sem_cat_inv r1 r2 w c c2 :
  sem (Cat r1 r2) w c c2 ->
  exists w1 w2 c1, w = w1 ++ w2 /\ sem r1 w1 c c1 /\ sem r2 w2 c1 c2.
Proof. inversion 1; subst; eauto 10. Qed.

Lemma sem_plus_inv p w c c' :
  sem (PlusCls p) w c c' ->
  w <> [] /\ Forall (fun x => p x = true) w /\ c' = c.
Proof. inversion 1; subst; auto. Qed.

Lemma sem_grp_inv r w c c' :
  sem (Grp r) w c c' -> c' = Some w /\ exists c1, sem r w c c1.
Proof. inversion 1; subst; eauto. Qed.

(** What [sendPay] matches, and what it captures. *)
Lemma sendPay_sem w caps :
  sem sendPay w None caps <->
  exists ws1 amount ws2,
    w = js "Send" ++ ws1 ++ amount ++ ws2 ++ js "PAY"
    /\ caps = Some amount
    /\ ws1 <> [] /\ Forall (fun c => space c = true) ws1
    /\ amount <> [] /\ Forall (fun c => digitOrDot c = true) amount
    /\ ws2 <> [] /\ Forall (fun c => space c = true) ws2.
Proof.
  unfold sendPay. split.
  - intros (w1 & ? & c1 & -> & [-> ->]%sem_lit
      & (ws1 & ? & c2 & -> & (? & ? & ->)%sem_plus_inv
      & (amount & ? & c3 & -> & [-> [c4 (? & ? & ->)%sem_plus_inv]]%sem_grp_inv
      & (ws2 & ? & c5 & -> & (? & ? & ->)%sem_plus_inv
      & [-> ->]%sem_lit)%sem_cat_inv)%sem_cat_inv)%sem_cat_inv)%sem_cat_inv.
    exists ws1, amount, ws2. split_and!; auto.
  - intros (ws1 & amount & ws2 & -> & -> & ? & ? & ? & ? & ? & ?).
    econstructor; [by apply sem_lit|].
    econstructor; [by constructor|].
    econstructor; [econstructor; by constructor|].
    econstructor; [by constructor | by apply sem_lit].
Qed.

Lemma exec_sendPay_sound description caps :
  exec sendPay description = Some caps ->
  exists amount, caps = Some amount /\ sendPayOccurrence description amount.
Proof.
  intros (before & w & after & -> & Hsem)%exec_sound.
  apply sendPay_sem in Hsem
    as (ws1 & amount & ws2 & -> & -> & ? & ? & ? & ? & ? & ?).
  exists amount. split; [done|]. exists before, ws1, ws2, after.
  split_and!; auto. by rewrite <- !app_assoc.
Qed.

Lemma exec_sendPay_complete description amount :
  sendPayOccurrence description amount ->
  is_Some (exec sendPay description).
Proof.
  intros (before & ws1 & ws2 & after & -> & ? & ? & ? & ? & ? & ?).
  replace (js "Send" ++ ws1 ++ amount ++ ws2 ++ js "PAY" ++ after)
    with ((js "Send" ++ ws1 ++ amount ++ ws2 ++ js "PAY") ++ after)
    by (by rewrite <- !app_assoc).
  eapply exec_complete, sendPay_sem. eauto 12.
Qed.

(** ** The selection of the accept entry *)

Lemma includes_marker_truthy s :
  includes s targetDescription = true -> truthy s = true.
Proof.
  intros (before & after & ->)%includes_spec. by destruct before.
Qed.

Lemma find_marked_first before a after :
  Forall (fun b => marked b = false) before -> marked a = true ->
  List.find (fun opt =>
      truthy (Pay402Accept.description opt)
      && includes (Pay402Accept.description opt) targetDescription)
    (before ++ a :: after) = Some a.
Proof.
  unfold marked. intros Hbefore Ha.
  induction Hbefore as [|b before Hb _ IH]; simpl.
  - by rewrite Ha, (includes_marker_truthy _ Ha).
  - by rewrite Hb, andb_false_r.
Qed.

Lemma find_unmarked accepts :
  Forall (fun b => marked b = false) accepts ->
  List.find (fun opt =>
      truthy (Pay402Accept.description opt)
      && includes (Pay402Accept.description opt) targetDescription)
    accepts = None.
Proof.
  unfold marked. induction 1 as [|b accepts Hb _ IH]; simpl; [done|].
  by rewrite Hb, andb_false_r.
Qed.

Lemma acceptOption_first response d before a after :
  AxiosResponse.data response = Some d ->
  Pay402Response.accepts d = Some (before ++ a :: after) ->
  Forall (fun b => marked b = false) before -> marked a = true ->
  acceptOption (AxiosResponse.data response) = Some a.
Proof.
  intros -> Hd Hbefore Ha. unfold acceptOption. rewrite Hd.
  rewrite find_marked_first by done.
  by destruct before.
Qed.

Lemma acceptOption_unmarked response :
  (forall d accepts,
      AxiosResponse.data response = Some d ->
      Pay402Response.accepts d = Some accepts ->
      Forall (fun b => marked b = false) accepts) ->
  acceptOption (AxiosResponse.data response) = None.
Proof.
  intros H. unfold acceptOption.
  destruct (AxiosResponse.data response) as [d|]; [|done].
  destruct (Pay402Response.accepts d) as [accepts|] eqn:Hd; [|done].
  rewrite find_unmarked by eauto. by destruct (0 <? length accepts)%nat.
Qed.

(** ** The two extraction rules *)

Lemma payOption_parsed a parsed :
  exec sendPay (Pay402Accept.description a) = Some (Some parsed) ->
  payOption a = [ PaymentOption.mk parsed (js "PAY") (Pay402Accept.payTo a) ].
Proof.
  intros H. unfold payOption. rewrite H.
  apply exec_sendPay_sound in H as (amount & [= <-] & Hocc).
  destruct Hocc as (_ & _ & _ & _ & _ & _ & _ & Hne & _).
  by destruct parsed.
Qed.

Lemma payOption_no_occurrence a :
  (forall amount,
      ~ sendPayOccurrence (Pay402Accept.description a) amount) ->
  payOption a = [].
Proof.
  intros H. unfold payOption.
  destruct (exec sendPay (Pay402Accept.description a)) as [caps|] eqn:He;
    [|done].
  apply exec_sendPay_sound in He as (amount & -> & Hocc).
  by destruct (H amount).
Qed.

Lemma assetOption_both a :
  Pay402Accept.maxAmountRequired a <> [] -> Pay402Accept.asset a <> [] ->
  assetOption a =
    [ PaymentOption.mk
        (Pay402Accept.maxAmountRequired a)
        (orElse (Pay402Accept.extra a ≫= (.!! js "name"))
                (Pay402Accept.asset a))
        (Pay402Accept.payTo a) ].
Proof.
  intros H1 H2. unfold assetOption.
  destruct (Pay402Accept.maxAmountRequired a); [done|].
  by destruct (Pay402Accept.asset a).
Qed.

Lemma assetOption_missing a :
  Pay402Accept.maxAmountRequired a = [] \/ Pay402Accept.asset a = [] ->
  assetOption a = [].
Proof.
  unfold assetOption. intros [-> | ->]; [done|]. by rewrite andb_false_r.
Qed.

(** ** The handler *)

Section Handler.
Context {Resp Exn Callback : Type}.
Implicit Types (w : collaborators Resp Exn Callback) (f : Callback).
Implicit Types (axiosInstance : instance) (error : AxiosError.t).

Abbreviation handler := (@rejectedHandler Resp Exn Callback).

Lemma handler_matched axiosInstance f error a :
  matched402 error a -> pricing a <> [] ->
  handler axiosInstance f error =
    AwaitSign f (pricing a) (Pay402Accept.resource a)
      (afterSign axiosInstance error).
Proof.
  intros (response & Hr & Hs & Ha) Hp. unfold rejectedHandler.
  rewrite Hr, Hs, Ha. simpl. by destruct (pricing a).
Qed.

Lemma handler_unmatched axiosInstance f error response :
  AxiosError.response error = Some response ->
  acceptOption (AxiosResponse.data response) = None ->
  handler axiosInstance f error = passThrough error.
Proof.
  intros Hr Ha. unfold rejectedHandler. rewrite Hr, Ha.
  by destruct (AxiosResponse.status response =? 402)%Z.
Qed.

Lemma handler_no_options axiosInstance f error response a :
  AxiosError.response error = Some response ->
  acceptOption (AxiosResponse.data response) = Some a ->
  pricing a = [] ->
  handler axiosInstance f error = passThrough error.
Proof.
  intros Hr Ha Hp. unfold rejectedHandler. rewrite Hr, Ha, Hp.
  by destruct (AxiosResponse.status response =? 402)%Z.
Qed.

(** ** The claims about the handler *)

(** C1 (as amended).  For a 402 error whose challenge has an accept entry
    with the marker in its description, the options derive from the first
    such entry only, whatever follows it in the list: when they are not
    empty, the payer callback receives them and the resource of that
    entry.  When the pattern [Send <amount> PAY] matches the description
    of that entry with [parsed] as its amount, and the entry has a
    non-empty [maxAmountRequired] and a non-empty [asset], the options are
    exactly two, in this order: [parsed] in currency [PAY], then
    [maxAmountRequired] in the currency [extra.name] if that field is
    present and not the empty string, else [asset]; both are payable to
    the [payTo] of the entry. *)
Theorem C1_two_options_from_first_marked_entry
    axiosInstance f error response d before a after :
  AxiosError.response error = Some response ->
  AxiosResponse.status response = 402%Z ->
  AxiosResponse.data response = Some d ->
  Pay402Response.accepts d = Some (before ++ a :: after) ->
  Forall (fun b => marked b = false) before ->
  marked a = true ->
  acceptOption (AxiosResponse.data response) = Some a
  /\ (pricing a <> [] ->
      firstCall (handler axiosInstance f error)
        = Some (pricing a, Pay402Accept.resource a))
  /\ (forall parsed,
        exec sendPay (Pay402Accept.description a) = Some (Some parsed) ->
        Pay402Accept.maxAmountRequired a <> [] ->
        Pay402Accept.asset a <> [] ->
        firstCall (handler axiosInstance f error) =
          Some ([ PaymentOption.mk parsed (js "PAY") (Pay402Accept.payTo a);
                  PaymentOption.mk
                    (Pay402Accept.maxAmountRequired a)
                    (match Pay402Accept.extra a ≫= (.!! js "name") with
                     | Some (c :: name) => c :: name
                     | _ => Pay402Accept.asset a
                     end)
                    (Pay402Accept.payTo a) ],
                Pay402Accept.resource a)).
Proof.
  intros Hr Hs Hd Hl Hbefore Ha.
  assert (acceptOption (AxiosResponse.data response) = Some a) as Hfirst
    by eauto using acceptOption_first.
  assert (matched402 error a) as Hm by (exists response; auto).
  assert (pricing a <> [] ->
          firstCall (handler axiosInstance f error)
            = Some (pricing a, Pay402Accept.resource a)) as Hcall.
  { intros Hp. by rewrite (handler_matched _ _ _ _ Hm Hp). }
  split_and!; [done | done |].
  intros parsed Hparsed Hmax Hasset.
  assert (pricing a =
    [ PaymentOption.mk parsed (js "PAY") (Pay402Accept.payTo a);
      PaymentOption.mk
        (Pay402Accept.maxAmountRequired a)
        (match Pay402Accept.extra a ≫= (.!! js "name") with
         | Some (c :: name) => c :: name
         | _ => Pay402Accept.asset a
         end)
        (Pay402Accept.payTo a) ]) as Hp.
  { unfold pricing.
    rewrite (payOption_parsed _ _ Hparsed), assetOption_both by done.
    simpl. do 2 f_equal. unfold orElse.
    by destruct (Pay402Accept.extra a ≫= (.!! js "name")) as [[|c name]|]. }
  rewrite Hcall; by rewrite Hp.
Qed.

(** C2 (as amended).  For a matched 402 with a non-empty option list whose
    error object carries a request configuration, if the payer callback
    resolves with a token [T] then, after that one call, the original
    request is reissued once, through the same client instance: the
    configuration reissued has the method, the URL and the body of the
    original, its header [x-pay402] is [T], and every header of the
    original is in it with its value.  The handler settles as the
    reissued request does: it resolves with the response that the retry
    resolves with, and rejects with what the retry rejects with. *)
Theorem C2_token_attached_and_request_reissued
    w axiosInstance f error a config T :
  matched402 error a ->
  pricing a <> [] ->
  AxiosError.config error = Some config ->
  payer w f (pricing a) (Pay402Accept.resource a) = Resolved T ->
  exists config' headers',
    RequestConfig.method config' = RequestConfig.method config
    /\ RequestConfig.url config' = RequestConfig.url config
    /\ RequestConfig.data config' = RequestConfig.data config
    /\ RequestConfig.headers config' = Some headers'
    /\ headers' !! js "x-pay402" = Some T
    /\ (forall headers name value,
          RequestConfig.headers config = Some headers ->
          name <> js "x-pay402" ->
          headers !! name = Some value -> headers' !! name = Some value)
    /\ (perform w (handler axiosInstance f error)).1 =
         [ SignCalled f (pricing a) (Pay402Accept.resource a);
           RequestIssued axiosInstance config' ]
    /\ (forall response,
          transport w axiosInstance config' = Resolved response ->
          settlement (perform w (handler axiosInstance f error)).2
            = Resolved response)
    /\ (forall x,
          transport w axiosInstance config' = Rejected x ->
          settlement (perform w (handler axiosInstance f error)).2
            = Rejected (Foreign x)).
Proof.
  intros Hm Hp Hc HT.
  exists (setPay402Header config T),
    (<[js "x-pay402" := T]> (default ∅ (RequestConfig.headers config))).
  rewrite (handler_matched _ _ _ _ Hm Hp). simpl. rewrite HT. simpl.
  rewrite Hc. simpl. split_and!; try done.
  - apply lookup_insert_eq.
  - intros headers name value -> Hne Hv. simpl.
    by rewrite lookup_insert_ne.
  - by intros response ->.
  - by intros x ->.
Qed.

(** C3.  For a 402 error in which no accept entry has the marker in its
    description, or in which the first entry that has it yields no option
    (the pattern does not match its description, and [maxAmountRequired]
    or [asset] is empty), the handler rejects with the error object it was
    given, leaves that object as it was, and never calls the payer
    callback: it makes no call at all. *)
Theorem C3_unmatched_402_rejects_unchanged
    axiosInstance f error response :
  AxiosError.response error = Some response ->
  AxiosResponse.status response = 402%Z ->
  (forall d accepts,
      AxiosResponse.data response = Some d ->
      Pay402Response.accepts d = Some accepts ->
      Forall (fun b => marked b = false) accepts)
  \/ (exists d before a after,
        AxiosResponse.data response = Some d
        /\ Pay402Response.accepts d = Some (before ++ a :: after)
        /\ Forall (fun b => marked b = false) before
        /\ marked a = true
        /\ (forall amount,
              ~ sendPayOccurrence (Pay402Accept.description a) amount)
        /\ (Pay402Accept.maxAmountRequired a = []
            \/ Pay402Accept.asset a = [])) ->
  handler axiosInstance f error
    = Return (mkOutcome (Rejected OriginalError) error)
  /\ forall w,
       perform w (handler axiosInstance f error)
         = ([], mkOutcome (Rejected OriginalError) error).
Proof.
  intros Hr _ H.
  assert (handler axiosInstance f error = passThrough error) as ->.
  { destruct H as [H | (d & before & a & after & Hd & Hl & Hb & Ha & Hno & He)].
    - eauto using handler_unmatched, acceptOption_unmarked.
    - eapply handler_no_options; eauto using acceptOption_first.
      unfold pricing.
      by rewrite payOption_no_occurrence, assetOption_missing. }
  done.
Qed.

(** C4.  For a matched 402 with a non-empty option list, if the payer
    callback rejects with [E], the handler rejects with [E], which is not
    the original error, and the call of the callback is the only call it
    makes: no request is reissued. *)
Theorem C4_payer_rejection_replaces_error w axiosInstance f error a E :
  matched402 error a ->
  pricing a <> [] ->
  payer w f (pricing a) (Pay402Accept.resource a) = Rejected E ->
  perform w (handler axiosInstance f error)
    = ([ SignCalled f (pricing a) (Pay402Accept.resource a) ],
       mkOutcome (Rejected (Foreign E)) error)
  /\ @Rejected Resp _ (Foreign E) <> Rejected OriginalError.
Proof.
  intros Hm Hp HE. rewrite (handler_matched _ _ _ _ Hm Hp). simpl.
  by rewrite HE.
Qed.

(** C5 (as amended).  In one run of the handler, whatever the collaborators
    answer, the payer callback is called at most once and the request is
    reissued at most once; when the reissued request fails, with a second
    402 or with anything else, as the client instance reports it to that
    run, the handler rejects with that failure, and the reissue is the
    last call it made. *)
Theorem C5_at_most_one_retry w axiosInstance f error :
  (length (List.filter isSign
     (perform w (handler axiosInstance f error)).1) <= 1)%nat
  /\ (length (List.filter isRequest
        (perform w (handler axiosInstance f error)).1) <= 1)%nat
  /\ forall client config x,
       In (RequestIssued client config)
          (perform w (handler axiosInstance f error)).1 ->
       transport w client config = Rejected x ->
       last (perform w (handler axiosInstance f error)).1
         = Some (RequestIssued client config)
       /\ settlement (perform w (handler axiosInstance f error)).2
            = Rejected (Foreign x).
Proof.
  unfold rejectedHandler, passThrough.
  destruct (AxiosError.response error) as [response|];
    [|simpl; split_and!; [lia | lia | by intros ? ? ? []]].
  destruct (AxiosResponse.status response =? 402)%Z;
    [|simpl; split_and!; [lia | lia | by intros ? ? ? []]].
  destruct (acceptOption (AxiosResponse.data response)) as [a|];
    [|simpl; split_and!; [lia | lia | by intros ? ? ? []]].
  destruct (0 <? length (pricing a))%nat;
    [|simpl; split_and!; [lia | lia | by intros ? ? ? []]].
  simpl. unfold afterSign, passThrough.
  destruct (payer w f (pricing a) (Pay402Accept.resource a)) as [T|E];
    [|simpl; split_and!; [lia | lia | by intros ? ? ? [|[]]]].
  destruct (AxiosError.config error) as [config|];
    [|simpl; split_and!; [lia | lia | by intros ? ? ? [|[]]]].
  simpl. split_and!; [lia | lia |].
  intros client config' x [?|[[= <- <-]|[]]] Hx; [done|].
  by rewrite Hx.
Qed.

(** C7.  For a failure that carries no response, or whose status is not
    402, the handler rejects at once with the error object it was given,
    left as it was, whatever the body of the response: it calls neither
    the payer callback nor the client. *)
Theorem C7_other_failures_pass_through axiosInstance f error :
  AxiosError.response error = None
  \/ (exists response,
        AxiosError.response error = Some response
        /\ AxiosResponse.status response <> 402%Z) ->
  handler axiosInstance f error
    = Return (mkOutcome (Rejected OriginalError) error)
  /\ forall w,
       perform w (handler axiosInstance f error)
         = ([], mkOutcome (Rejected OriginalError) error).
Proof.
  intros H.
  assert (handler axiosInstance f error = passThrough error) as ->; [|done].
  unfold rejectedHandler. destruct H as [-> | (response & -> & Hs)]; [done|].
  by apply Z.eqb_neq in Hs as ->.
Qed.

(** C8.  On the path where the payer callback resolves with a token [T]
    and the error object carries a request configuration, the
    configuration that is reissued has the method, the URL and the body of
    the original; its header set is the original one, or a new empty one
    when there was none, with [x-pay402] set to [T] and every other header
    as before, none added and none removed; and nothing else of the error
    object has changed. *)
Theorem C8_only_the_header_is_written
    w axiosInstance f error a config T :
  matched402 error a ->
  pricing a <> [] ->
  AxiosError.config error = Some config ->
  payer w f (pricing a) (Pay402Accept.resource a) = Resolved T ->
  exists config' headers',
    In (RequestIssued axiosInstance config')
       (perform w (handler axiosInstance f error)).1
    /\ RequestConfig.method config' = RequestConfig.method config
    /\ RequestConfig.url config' = RequestConfig.url config
    /\ RequestConfig.data config' = RequestConfig.data config
    /\ RequestConfig.headers config' = Some headers'
    /\ headers' !! js "x-pay402" = Some T
    /\ (forall name,
          name <> js "x-pay402" ->
          headers' !! name
            = match RequestConfig.headers config with
              | Some headers => headers !! name
              | None => None
              end)
    /\ errorAfter (perform w (handler axiosInstance f error)).2
         = AxiosError.mk (AxiosError.message error) (AxiosError.code error)
             (Some config') (AxiosError.response error).
Proof.
  intros Hm Hp Hc HT.
  exists (setPay402Header config T),
    (<[js "x-pay402" := T]> (default ∅ (RequestConfig.headers config))).
  rewrite (handler_matched _ _ _ _ Hm Hp). simpl. rewrite HT. simpl.
  rewrite Hc. simpl. split_and!; try done.
  - auto.
  - apply lookup_insert_eq.
  - intros name Hne. rewrite lookup_insert_ne by done.
    by destruct (RequestConfig.headers config).
Qed.

(** C10.  For a matched 402 with a non-empty option list whose error
    object carries no request configuration, the payer callback is still
    called; when it resolves, its token is dropped, no request is
    reissued, and the handler rejects with the original error object, left
    as it was. *)
Theorem C10_no_config_no_retry w axiosInstance f error a T :
  matched402 error a ->
  pricing a <> [] ->
  AxiosError.config error = None ->
  payer w f (pricing a) (Pay402Accept.resource a) = Resolved T ->
  perform w (handler axiosInstance f error)
    = ([ SignCalled f (pricing a) (Pay402Accept.resource a) ],
       mkOutcome (Rejected OriginalError) error).
Proof.
  intros Hm Hp Hc HT. rewrite (handler_matched _ _ _ _ Hm Hp). simpl.
  rewrite HT. simpl. by rewrite Hc.
Qed.

End Handler.

(** ** The claim about the pattern *)

(** C6 (as amended).  The amount of the option of rule 1 is a non-empty
    string of digits and points, with any number of points, that stands in
    the description between the word [Send] and the word [PAY], written in
    these capitals, with white space on both sides; the option is in
    currency [PAY] and payable to the [payTo] of the entry.  Rule 1 emits
    an option whenever the description has such an occurrence, and for
    every description that has none it emits no option: it does not
    fail. *)
Theorem C6_amount_of_digits_and_points (a : Pay402Accept.t) :
  (forall o, In o (payOption a) ->
     PaymentOption.amount o <> []
     /\ Forall (fun c => digitOrDot c = true) (PaymentOption.amount o)
     /\ sendPayOccurrence (Pay402Accept.description a)
          (PaymentOption.amount o)
     /\ PaymentOption.currency o = js "PAY"
     /\ PaymentOption.payTo o = Pay402Accept.payTo a)
  /\ ((exists amount,
         sendPayOccurrence (Pay402Accept.description a) amount) ->
      exists o, payOption a = [o])
  /\ ((forall amount,
         ~ sendPayOccurrence (Pay402Accept.description a) amount) ->
      payOption a = []).
Proof.
  split_and!.
  - intros o. unfold payOption.
    destruct (exec sendPay (Pay402Accept.description a)) as [caps|] eqn:He;
      [|by intros []].
    apply exec_sendPay_sound in He as (amount & -> & Hocc).
    destruct (truthy amount); [|by intros []].
    intros [<-|[]]. simpl.
    destruct Hocc as (before & ws1 & ws2 & after & Hd & ? & ? & ? & ? & ? & ?).
    split_and!; try done. by exists before, ws1, ws2, after.
  - intros [amount [caps He]%exec_sendPay_complete].
    destruct (exec_sendPay_sound _ _ He) as (parsed & -> & _).
    rewrite (payOption_parsed _ _ He). eauto.
  - apply payOption_no_occurrence.
Qed.

(** ** The claim about the setup *)

Section Setup.
Context {Resp Exn Callback Wallet : Type}.
Variable withPaymentInterceptor :
  instance -> Wallet -> registry Resp Exn Callback
  -> registry Resp Exn Callback.

(** C9.  The setup first lets the fallback act on the clients and then
    registers its own interceptor on the given instance: that interceptor
    is the last of the instance, after all that the fallback left there,
    so that a chain in which the last registered runs first offers a
    failure to it before any other; its failure handler is the handler
    above, for the given instance and callback, and its success handler
    returns the response as it is.  The other instances are as the
    fallback left them, and the setup returns the instance it was
    given. *)
Theorem C9_setup_registers_after_fallback
    (axiosInstance : instance) (signTransaction : Callback)
    (walletClient : Wallet) (clients : registry Resp Exn Callback) :
  let fallback := withPaymentInterceptor axiosInstance walletClient clients in
  let own := ownInterceptor axiosInstance signTransaction in
  let result :=
    withPay402Interceptor withPaymentInterceptor axiosInstance
      signTransaction walletClient clients in
  result.2 = axiosInstance
  /\ result.1 = use axiosInstance own fallback
  /\ result.1 axiosInstance = fallback axiosInstance ++ [own]
  /\ (forall other, other <> axiosInstance ->
        result.1 other = fallback other)
  /\ lastRegisteredFirst result.1 axiosInstance
       = own :: lastRegisteredFirst fallback axiosInstance
  /\ onRejected own = rejectedHandler axiosInstance signTransaction
  /\ (forall response, onFulfilled own response = response).
Proof.
  simpl. unfold lastRegisteredFirst, use. split_and!; try done.
  - by rewrite decide_True.
  - intros other Hne. by rewrite decide_False.
  - rewrite decide_True by done. by rewrite rev_app_distr.
Qed.

End Setup.

(** ** The claims on concrete scenarios *)

Import Scenario.

Abbreviation handlerZ := (@rejectedHandler Z jsstring unit).

Lemma matched_A : matched402 errorA acceptA.
Proof. eexists. split_and!; reflexivity. Defined.

Lemma matched_noConfig : matched402 errorNoConfig acceptA.
Proof. eexists. split_and!; reflexivity. Defined.

Lemma pricing_A : pricing acceptA <> [].
Proof. vm_compute. discriminate. Defined.

(** The pattern is case-sensitive. *)
Example sendPay_lower_case : exec sendPay (js "Send 1 pay") = None.
Proof. reflexivity. Qed.

(** Scenario A of the specification. *)
Example scenario_A_options :
  pricing acceptA =
    [ PaymentOption.mk (js "0.066") (js "PAY") payToA;
      PaymentOption.mk (js "14000") (js "USD Coin") payToA ].
Proof. vm_compute. reflexivity. Qed.

(** C1, as stated, fails when [extra.name] is present and is the empty
    string: the currency of the second option is then the asset, not the
    name. *)
Lemma C1_counterexample_empty_name :
  AxiosError.response errorEmptyName
    = Some (AxiosResponse.mk 402 (js "Payment Required")
        (Some (Pay402Response.mk 1 (js "X-PAYMENT header is required")
           (Some [acceptEmptyName]))))
  /\ marked acceptEmptyName = true
  /\ exec sendPay (Pay402Accept.description acceptEmptyName)
       = Some (Some (js "1"))
  /\ Pay402Accept.maxAmountRequired acceptEmptyName <> []
  /\ Pay402Accept.asset acceptEmptyName <> []
  /\ Pay402Accept.extra acceptEmptyName ≫= (.!! js "name") = Some (js "")
  /\ firstCall (handlerZ 0 tt errorEmptyName)
       = Some ([ PaymentOption.mk (js "1") (js "PAY") payToA;
                 PaymentOption.mk (js "14000") usdc payToA ],
               Pay402Accept.resource acceptEmptyName)
  /\ firstCall (handlerZ 0 tt errorEmptyName)
       <> Some (statedOptions acceptEmptyName (js "1"),
                Pay402Accept.resource acceptEmptyName).
Proof.
  split_and!; try (vm_compute; (reflexivity || discriminate)).
Qed.

Lemma C1_witness :
  firstCall (handlerZ 0 tt errorBA) =
    Some ([ PaymentOption.mk (js "0.066") (js "PAY") payToA;
            PaymentOption.mk (js "14000") (js "USD Coin") payToA ],
          js "http://localhost:3000/api/pay-for-order").
Proof.
  apply (C1_two_options_from_first_marked_entry 0 tt errorBA
           (AxiosResponse.mk 402 (js "Payment Required")
              (Some (Pay402Response.mk 1 (js "X-PAYMENT header is required")
                 (Some [acceptB; acceptA; acceptEmptyName]))))
           (Pay402Response.mk 1 (js "X-PAYMENT header is required")
              (Some [acceptB; acceptA; acceptEmptyName]))
           [acceptB] acceptA [acceptEmptyName]);
    try reflexivity; try (vm_compute; discriminate).
  repeat constructor.
Defined.

(** C2, as stated, fails when the error object has no request
    configuration: the payer resolves, and no request is reissued. *)
Lemma C2_counterexample_no_config :
  matched402 errorNoConfig acceptA
  /\ pricing acceptA <> []
  /\ payer paying tt (pricing acceptA) (Pay402Accept.resource acceptA)
       = Resolved (js "valid-tx-id")
  /\ perform paying (handlerZ 0 tt errorNoConfig)
       = ([ SignCalled tt (pricing acceptA) (Pay402Accept.resource acceptA) ],
          mkOutcome (Rejected OriginalError) errorNoConfig)
  /\ List.filter isRequest (perform paying (handlerZ 0 tt errorNoConfig)).1
       = [].
Proof.
  split_and!; [apply matched_noConfig | apply pricing_A | done | done | done].
Qed.

Lemma C2_witness :
  exists config' headers',
    RequestConfig.method config' = js "get"
    /\ RequestConfig.url config' = js "/protected-resource-custom"
    /\ RequestConfig.data config' = None
    /\ RequestConfig.headers config' = Some headers'
    /\ headers' !! js "x-pay402" = Some (js "valid-tx-id")
    /\ (forall headers name value,
          RequestConfig.headers configA = Some headers ->
          name <> js "x-pay402" ->
          headers !! name = Some value -> headers' !! name = Some value)
    /\ (perform paying (handlerZ 0 tt errorA)).1 =
         [ SignCalled tt (pricing acceptA) (Pay402Accept.resource acceptA);
           RequestIssued 0 config' ]
    /\ (forall response,
          transport paying 0 config' = Resolved response ->
          settlement (perform paying (handlerZ 0 tt errorA)).2
            = Resolved response)
    /\ (forall x,
          transport paying 0 config' = Rejected x ->
          settlement (perform paying (handlerZ 0 tt errorA)).2
            = Rejected (Foreign x)).
Proof.
  apply (C2_token_attached_and_request_reissued paying 0 tt errorA acceptA
           configA (js "valid-tx-id"));
    [apply matched_A | apply pricing_A | reflexivity | reflexivity].
Defined.

(** Scenario B of the specification, and an entry that yields nothing. *)
Lemma C3_witness :
  (handlerZ 0 tt errorB = Return (mkOutcome (Rejected OriginalError) errorB)
   /\ forall w, perform w (handlerZ 0 tt errorB)
                = ([], mkOutcome (Rejected OriginalError) errorB))
  /\ (handlerZ 0 tt errorNoOption
        = Return (mkOutcome (Rejected OriginalError) errorNoOption)
      /\ forall w, perform w (handlerZ 0 tt errorNoOption)
                   = ([], mkOutcome (Rejected OriginalError) errorNoOption)).
Proof.
  split.
  - apply (C3_unmatched_402_rejects_unchanged 0 tt errorB
             (AxiosResponse.mk 402 (js "Payment Required")
               (Some (Pay402Response.mk 1 (js "X-PAYMENT header is required")
                  (Some [acceptB]))))); [reflexivity | reflexivity |].
    left. intros d accepts [= <-] [= <-]. repeat constructor.
  - apply (C3_unmatched_402_rejects_unchanged 0 tt errorNoOption
             (AxiosResponse.mk 402 (js "Payment Required")
               (Some (Pay402Response.mk 1 (js "X-PAYMENT header is required")
                  (Some [acceptB; acceptNoOption])))));
      [reflexivity | reflexivity |].
    right. eexists _, [acceptB], acceptNoOption, [].
    split_and!; [reflexivity | reflexivity | repeat constructor
                | reflexivity | | by right].
    intros amount Hocc. apply exec_sendPay_complete in Hocc as [caps Hc].
    vm_compute in Hc. discriminate.
Defined.

Lemma C4_witness :
  perform declining (handlerZ 0 tt errorA)
    = ([ SignCalled tt (pricing acceptA) (Pay402Accept.resource acceptA) ],
       mkOutcome (Rejected (Foreign (js "declined"))) errorA)
  /\ @Rejected Z _ (Foreign (js "declined")) <> Rejected OriginalError.
Proof.
  apply (C4_payer_rejection_replaces_error declining 0 tt errorA acceptA
           (js "declined")); [apply matched_A | apply pricing_A | reflexivity].
Defined.

(** C5, as stated, fails on the path of a request through the instance on
    which the handler is registered: the retried request is answered 402
    again, that failure is given to the handler again, and the payer
    callback is called a second time and the request reissued a second
    time; the caller gets the 200 of the third request, not the second
    402. *)
Lemma C5_counterexample_second_402_pays_again :
  requestThrough Insisting.payerPays Insisting.server tt 0 configA
  = Some ([ SignCalled tt (pricing acceptA) (Pay402Accept.resource acceptA);
            RequestIssued 0 (setPay402Header configA (js "valid-tx-id"));
            SignCalled tt (pricing acceptA) (Pay402Accept.resource acceptA);
            RequestIssued 0
              (setPay402Header (setPay402Header configA (js "valid-tx-id"))
                 (js "valid-tx-id")) ],
          Resolved 200%Z).
Proof. vm_compute. reflexivity. Qed.

(** A second 402 on the reissued request, one that the handler would
    match if it were given it. *)
Lemma C5_witness :
  (perform insisting (rejectedHandler 0 tt errorA)).1
    = [ SignCalled tt (pricing acceptA) (Pay402Accept.resource acceptA);
        RequestIssued 0 (setPay402Header configA (js "valid-tx-id")) ]
  /\ settlement (perform insisting (rejectedHandler 0 tt errorA)).2
       = Rejected (Foreign errorA).
Proof.
  split; [reflexivity|].
  apply (C5_at_most_one_retry insisting 0 tt errorA) with
    (client := 0) (config := setPay402Header configA (js "valid-tx-id"));
    [right; left; reflexivity | reflexivity].
Defined.

(** C6, as stated, fails on a matched description whose amount has two
    points: the handler selects the entry, parses the amount [1.2.3] from
    its description, and offers it to the payer callback in currency
    [PAY]. *)
Lemma C6_counterexample_two_points :
  marked acceptTwoPoints = true
  /\ matched402 errorTwoPoints acceptTwoPoints
  /\ exec sendPay (Pay402Accept.description acceptTwoPoints)
       = Some (Some (js "1.2.3"))
  /\ atMostOnePoint (js "1.2.3") = false
  /\ payOption acceptTwoPoints
       = [ PaymentOption.mk (js "1.2.3") (js "PAY") payToA ]
  /\ firstCall (handlerZ 0 tt errorTwoPoints)
       = Some ([ PaymentOption.mk (js "1.2.3") (js "PAY") payToA ],
               Pay402Accept.resource acceptTwoPoints).
Proof.
  split_and!; try reflexivity.
  eexists. split_and!; reflexivity.
Qed.

Lemma C6_witness :
  exists o, payOption acceptA = [o].
Proof.
  apply (C6_amount_of_digits_and_points acceptA).
  exists (js "0.066").
  exists (js "PAY402 is detected on this server for gas-free transfers. "),
    (js " "), (js " "),
    (js " or the USDC amount via 100Pay Internal transfer.").
  split_and!; try reflexivity; try discriminate; repeat constructor.
Defined.

Lemma C7_witness :
  handlerZ 0 tt error500
    = Return (mkOutcome (Rejected OriginalError) error500)
  /\ forall w, perform w (handlerZ 0 tt error500)
               = ([], mkOutcome (Rejected OriginalError) error500).
Proof.
  apply (C7_other_failures_pass_through 0 tt error500).
  right. eexists. split; [reflexivity | discriminate].
Defined.

Lemma C8_witness :
  exists config' headers',
    In (RequestIssued 0 config') (perform paying (handlerZ 0 tt errorA)).1
    /\ RequestConfig.method config' = js "get"
    /\ RequestConfig.url config' = js "/protected-resource-custom"
    /\ RequestConfig.data config' = None
    /\ RequestConfig.headers config' = Some headers'
    /\ headers' !! js "x-pay402" = Some (js "valid-tx-id")
    /\ (forall name,
          name <> js "x-pay402" ->
          headers' !! name
            = match RequestConfig.headers configA with
              | Some headers => headers !! name
              | None => None
              end)
    /\ errorAfter (perform paying (handlerZ 0 tt errorA)).2
         = AxiosError.mk (AxiosError.message errorA) (AxiosError.code errorA)
             (Some config') (AxiosError.response errorA).
Proof.
  apply (C8_only_the_header_is_written paying 0 tt errorA acceptA configA
           (js "valid-tx-id"));
    [apply matched_A | apply pricing_A | reflexivity | reflexivity].
Defined.

Lemma C9_witness :
  lastRegisteredFirst
    (withPay402Interceptor fallback 0 tt tt (fun _ => [])).1 0
  = [ ownInterceptor 0 tt; fallbackInterceptor ].
Proof.
  apply (C9_setup_registers_after_fallback fallback 0 tt tt (fun _ => [])).
Defined.

Lemma C10_witness :
  perform paying (handlerZ 0 tt errorNoConfig)
    = ([ SignCalled tt (pricing acceptA) (Pay402Accept.resource acceptA) ],
       mkOutcome (Rejected OriginalError) errorNoConfig).
Proof.
  apply (C10_no_config_no_retry paying 0 tt errorNoConfig acceptA
           (js "valid-tx-id"));
    [apply matched_noConfig | apply pricing_A | reflexivity | reflexivity].
Defined.

(** * Further properties

    ** The selection of the accept entry, lines 28-37 *)

Lemma find_first_inv {A} (P : A -> bool) l a :
  List.find P l = Some a ->
  exists before after,
    l = before ++ a :: after
    /\ Forall (fun b => P b = false) before /\ P a = true.
Proof.
  induction l as [|b l IH]; simpl; [done|].
  destruct (P b) eqn:Hb.
  - intros [= ->]. exists [], l. auto.
  - intros (before & after & -> & Hbefore & Ha)%IH.
    exists (b :: before), after. auto.
Qed.

Lemma find_none_inv {A} (P : A -> bool) l :
  List.find P l = None -> Forall (fun b => P b = false) l.
Proof.
  induction l as [|b l IH]; simpl; [constructor|].
  destruct (P b) eqn:Hb; [done|]. auto.
Qed.

Lemma selects_false_unmarked (b : Pay402Accept.t) :
  truthy (Pay402Accept.description b)
  && includes (Pay402Accept.description b) targetDescription = false ->
  marked b = false.
Proof.
  unfold marked. intros H.
  destruct (includes (Pay402Accept.description b) targetDescription) eqn:Hi;
    [|done].
  by rewrite (includes_marker_truthy _ Hi) in H.
Qed.

(** X1.  The entry that the handler selects is an element of the accept
    list of the challenge whose description contains the marker, and no
    element before it has the marker. *)
Theorem X1_selected_entry_is_first_marked
    (data : option Pay402Response.t) (a : Pay402Accept.t) :
  acceptOption data = Some a ->
  exists d before after,
    data = Some d
    /\ Pay402Response.accepts d = Some (before ++ a :: after)
    /\ Forall (fun b => marked b = false) before
    /\ marked a = true.
Proof.
  unfold acceptOption. destruct data as [d|]; [|done].
  destruct (Pay402Response.accepts d) as [accepts|] eqn:Hd; [|done].
  destruct (0 <? length accepts)%nat; [|done].
  intros (before & after & -> & Hbefore & Ha)%find_first_inv.
  exists d, before, after. split_and!; [done | done | |].
  - eapply Forall_impl; [exact Hbefore|]. apply selects_false_unmarked.
  - unfold marked. by apply andb_true_iff in Ha as [_ Ha].
Qed.

(** X2.  The handler selects no entry exactly when the body of the
    response is absent, has no accept list, or has a list in which no
    description contains the marker; an empty list is such a list. *)
Theorem X2_no_selection_iff_no_marker (data : option Pay402Response.t) :
  acceptOption data = None <->
  (forall d accepts,
      data = Some d ->
      Pay402Response.accepts d = Some accepts ->
      Forall (fun b => marked b = false) accepts).
Proof.
  split.
  - unfold acceptOption. intros H d accepts -> Hd. rewrite Hd in H.
    destruct accepts as [|b accepts]; [constructor|].
    change (0 <? length (b :: accepts))%nat with true in H.
    apply find_none_inv in H.
    eapply Forall_impl; [exact H|]. apply selects_false_unmarked.
  - intros H. unfold acceptOption. destruct data as [d|]; [|done].
    destruct (Pay402Response.accepts d) as [accepts|] eqn:Hd; [|done].
    rewrite find_unmarked by eauto. by destruct (0 <? length accepts)%nat.
Qed.

(** ** The derived options, lines 40-60 *)

Lemma payOption_cases a :
  payOption a = []
  \/ exists amount,
       amount <> []
       /\ payOption a
            = [ PaymentOption.mk amount (js "PAY") (Pay402Accept.payTo a) ].
Proof.
  unfold payOption.
  destruct (exec sendPay (Pay402Accept.description a)) as [[amount|]|];
    auto.
  destruct amount as [|c amount]; simpl; [auto|].
  right. exists (c :: amount). by split.
Qed.

Lemma payOption_occurrence a amount :
  sendPayOccurrence (Pay402Accept.description a) amount ->
  payOption a <> [].
Proof.
  intros [caps He]%exec_sendPay_complete.
  destruct (exec_sendPay_sound _ _ He) as (parsed & -> & _).
  by rewrite (payOption_parsed _ _ He).
Qed.

Lemma orElse_truthy x y : y <> [] -> orElse x y <> [].
Proof.
  intros Hy. unfold orElse. destruct x as [[|c s]|]; simpl; done.
Qed.

(** X3.  The option list derived from an entry has at most two options;
    each of them is payable to the [payTo] of the entry and has a
    non-empty amount and a non-empty currency. *)
Theorem X3_options_well_formed (a : Pay402Accept.t) :
  (length (pricing a) <= 2)%nat
  /\ forall o, In o (pricing a) ->
       PaymentOption.payTo o = Pay402Accept.payTo a
       /\ PaymentOption.amount o <> []
       /\ PaymentOption.currency o <> [].
Proof.
  unfold pricing. split.
  - rewrite length_app. unfold assetOption.
    destruct (payOption_cases a) as [-> | (amount & _ & ->)];
      destruct (_ && _); simpl; lia.
  - intros o [Ho | Ho]%in_app_or.
    + destruct (payOption_cases a) as [H | (amount & Hne & H)];
        rewrite H in Ho; [by destruct Ho|].
      destruct Ho as [<-|[]]. by simpl.
    + unfold assetOption in Ho.
      destruct (Pay402Accept.maxAmountRequired a) as [|c m] eqn:Hm;
        [by destruct Ho|].
      destruct (Pay402Accept.asset a) as [|c' s] eqn:Hs; [by destruct Ho|].
      destruct Ho as [<-|[]]. simpl. split_and!; [done | done |].
      by apply orElse_truthy.
Qed.

(** X4.  The option list of an entry is empty exactly when its
    description has no occurrence of the pattern and its
    [maxAmountRequired] or its [asset] is empty. *)
Theorem X4_no_option_iff (a : Pay402Accept.t) :
  pricing a = [] <->
  (forall amount, ~ sendPayOccurrence (Pay402Accept.description a) amount)
  /\ (Pay402Accept.maxAmountRequired a = [] \/ Pay402Accept.asset a = []).
Proof.
  unfold pricing. split.
  - intros [Hpay Hasset]%app_eq_nil. split.
    + intros amount Hocc. by apply (payOption_occurrence a amount).
    + unfold assetOption in Hasset.
      destruct (Pay402Accept.maxAmountRequired a); [auto|].
      destruct (Pay402Accept.asset a); [auto | done].
  - intros [Hno Hempty].
    by rewrite payOption_no_occurrence, assetOption_missing.
Qed.

Section FurtherHandler.
Context {Resp Exn Callback : Type}.
Implicit Types (w : collaborators Resp Exn Callback) (f : Callback).
Implicit Types (axiosInstance : instance) (error : AxiosError.t).

Abbreviation handler' := (@rejectedHandler Resp Exn Callback).

(** X5.  For a matched 402 whose selected entry has the pattern in its
    description and an empty [maxAmountRequired] or [asset], the payer
    callback receives the single option in currency [PAY]. *)
Theorem X5_pay_option_alone axiosInstance f error a parsed :
  matched402 error a ->
  exec sendPay (Pay402Accept.description a) = Some (Some parsed) ->
  Pay402Accept.maxAmountRequired a = [] \/ Pay402Accept.asset a = [] ->
  firstCall (handler' axiosInstance f error) =
    Some ([ PaymentOption.mk parsed (js "PAY") (Pay402Accept.payTo a) ],
          Pay402Accept.resource a).
Proof.
  intros Hm Hparsed Hempty.
  assert (pricing a
          = [ PaymentOption.mk parsed (js "PAY") (Pay402Accept.payTo a) ])
    as Hp.
  { unfold pricing.
    by rewrite (payOption_parsed _ _ Hparsed), assetOption_missing. }
  rewrite (handler_matched axiosInstance f error a Hm); by rewrite Hp.
Qed.

(** X6.  For a matched 402 whose selected entry has no occurrence of the
    pattern in its description and a non-empty [maxAmountRequired] and
    [asset], the payer callback is still called, with the single option
    of the asset; when the entry has no [extra], its currency is the
    asset itself. *)
Theorem X6_asset_option_alone axiosInstance f error a :
  matched402 error a ->
  (forall amount,
      ~ sendPayOccurrence (Pay402Accept.description a) amount) ->
  Pay402Accept.maxAmountRequired a <> [] ->
  Pay402Accept.asset a <> [] ->
  (exists currency,
     firstCall (handler' axiosInstance f error) =
       Some ([ PaymentOption.mk (Pay402Accept.maxAmountRequired a) currency
                 (Pay402Accept.payTo a) ],
             Pay402Accept.resource a)
     /\ (currency = Pay402Accept.asset a
         \/ (currency <> []
             /\ Pay402Accept.extra a ≫= (.!! js "name") = Some currency)))
  /\ (Pay402Accept.extra a = None ->
      firstCall (handler' axiosInstance f error) =
        Some ([ PaymentOption.mk (Pay402Accept.maxAmountRequired a)
                  (Pay402Accept.asset a) (Pay402Accept.payTo a) ],
              Pay402Accept.resource a)).
Proof.
  intros Hm Hno Hmax Hasset.
  assert (pricing a
          = [ PaymentOption.mk (Pay402Accept.maxAmountRequired a)
                (orElse (Pay402Accept.extra a ≫= (.!! js "name"))
                        (Pay402Accept.asset a))
                (Pay402Accept.payTo a) ]) as Hp.
  { unfold pricing.
    by rewrite payOption_no_occurrence, assetOption_both. }
  rewrite (handler_matched axiosInstance f error a Hm) by by rewrite Hp.
  simpl. rewrite Hp. split.
  - eexists. split; [reflexivity|]. unfold orElse.
    destruct (Pay402Accept.extra a ≫= (.!! js "name")) as [[|c s]|];
      simpl; auto.
  - by intros ->.
Qed.

(** ** The runs of the handler, lines 22-86 *)

Lemma matched402_unique error a a' :
  matched402 error a -> matched402 error a' -> a = a'.
Proof.
  intros (r & Hr & _ & Ha) (r' & Hr' & _ & Ha'). congruence.
Qed.

Lemma handler_cases axiosInstance f error :
  (exists a,
     matched402 error a /\ pricing a <> []
     /\ handler' axiosInstance f error
          = AwaitSign f (pricing a) (Pay402Accept.resource a)
              (afterSign axiosInstance error))
  \/ ((forall a, matched402 error a -> pricing a = [])
      /\ handler' axiosInstance f error = passThrough error).
Proof.
  unfold rejectedHandler.
  destruct (AxiosError.response error) as [response|] eqn:Hr.
  - destruct (AxiosResponse.status response =? 402)%Z eqn:Hs.
    + destruct (acceptOption (AxiosResponse.data response)) as [a|] eqn:Ha.
      * apply Z.eqb_eq in Hs.
        assert (matched402 error a) as Hm by (exists response; auto).
        destruct (pricing a) as [|o options] eqn:Hp; simpl.
        -- right. split; [|done]. intros a' Hm'.
           by rewrite <- (matched402_unique _ _ _ Hm Hm').
        -- left. exists a. rewrite Hp. auto.
      * right. split; [|done]. intros a (r & Hr' & _ & Ha'). congruence.
    + right. split; [|done]. intros a (r & Hr' & Hs' & _).
      apply Z.eqb_neq in Hs. congruence.
  - right. split; [|done]. intros a (r & Hr' & _). congruence.
Qed.

Lemma perform_cases w axiosInstance f error :
  perform w (handler' axiosInstance f error)
    = ([], mkOutcome (Rejected OriginalError) error)
  \/ exists a,
       matched402 error a /\ pricing a <> []
       /\ ((exists E,
              payer w f (pricing a) (Pay402Accept.resource a) = Rejected E
              /\ perform w (handler' axiosInstance f error)
                   = ([ SignCalled f (pricing a) (Pay402Accept.resource a) ],
                      mkOutcome (Rejected (Foreign E)) error))
           \/ (exists T,
                 payer w f (pricing a) (Pay402Accept.resource a) = Resolved T
                 /\ AxiosError.config error = None
                 /\ perform w (handler' axiosInstance f error)
                      = ([ SignCalled f (pricing a)
                             (Pay402Accept.resource a) ],
                         mkOutcome (Rejected OriginalError) error))
           \/ (exists T original,
                 payer w f (pricing a) (Pay402Accept.resource a) = Resolved T
                 /\ AxiosError.config error = Some original
                 /\ perform w (handler' axiosInstance f error)
                      = ([ SignCalled f (pricing a)
                             (Pay402Accept.resource a);
                           RequestIssued axiosInstance
                             (setPay402Header original T) ],
                         mkOutcome
                           (adopt (transport w axiosInstance
                                     (setPay402Header original T)))
                           (withConfig error (setPay402Header original T))))).
Proof.
  destruct (handler_cases axiosInstance f error)
    as [(a & Hm & Hp & ->) | [_ ->]]; [|by left].
  right. exists a. split_and!; [done | done |]. simpl.
  destruct (payer w f (pricing a) (Pay402Accept.resource a)) as [T|E];
    simpl; [|left; eauto].
  right. destruct (AxiosError.config error) as [original|]; simpl.
  - right. eauto.
  - left. eauto.
Qed.

(** X7.  The payer callback is called exactly when the failure is a 402
    whose selected entry yields an option, and then with the options and
    the resource of that entry; in every other case the handler makes no
    call and rejects with the error object it was given, left as it
    was. *)
Theorem X7_payer_called_iff_option axiosInstance f error :
  (exists a,
     matched402 error a /\ pricing a <> []
     /\ firstCall (handler' axiosInstance f error)
          = Some (pricing a, Pay402Accept.resource a))
  \/ ((forall a, matched402 error a -> pricing a = [])
      /\ forall w,
           perform w (handler' axiosInstance f error)
             = ([], mkOutcome (Rejected OriginalError) error)).
Proof.
  destruct (handler_cases axiosInstance f error)
    as [(a & Hm & Hp & ->) | [Hnone ->]].
  - left. eauto.
  - by right.
Qed.

(** X8.  The handler reissues a request only after the payer callback
    has resolved: every reissued request goes to the client instance that
    the handler was registered for, directly follows the one call of the
    payer callback, and carries the configuration of the error object
    with [x-pay402] set to the token that this call resolved with. *)
Theorem X8_reissue_follows_payment w axiosInstance f error client config :
  In (RequestIssued client config)
     (perform w (handler' axiosInstance f error)).1 ->
  client = axiosInstance
  /\ exists a original T,
       matched402 error a
       /\ AxiosError.config error = Some original
       /\ payer w f (pricing a) (Pay402Accept.resource a) = Resolved T
       /\ config = setPay402Header original T
       /\ (perform w (handler' axiosInstance f error)).1
            = [ SignCalled f (pricing a) (Pay402Accept.resource a);
                RequestIssued axiosInstance config ].
Proof.
  destruct (perform_cases w axiosInstance f error)
    as [-> | (a & Hm & Hp & [(E & HE & ->)
           | [(T & HT & Hc & ->) | (T & original & HT & Hc & ->)]])]; simpl.
  - intros [].
  - intros [[=]|[]].
  - intros [[=]|[]].
  - intros [[=]|[[= <- <-]|[]]]. split; [done|].
    exists a, original, T. auto.
Qed.

(** X9.  The handler resolves only with the response of the reissued
    request: it never turns a failure into a success by itself. *)
Theorem X9_resolves_only_with_retry w axiosInstance f error response :
  settlement (perform w (handler' axiosInstance f error)).2
    = Resolved response ->
  exists config,
    In (RequestIssued axiosInstance config)
       (perform w (handler' axiosInstance f error)).1
    /\ transport w axiosInstance config = Resolved response.
Proof.
  destruct (perform_cases w axiosInstance f error)
    as [-> | (a & Hm & Hp & [(E & HE & ->)
           | [(T & HT & Hc & ->) | (T & original & HT & Hc & ->)]])];
    simpl; try done.
  intros H. exists (setPay402Header original T). split; [auto|].
  destruct (transport w axiosInstance (setPay402Header original T));
    simpl in H; congruence.
Qed.

(** X10.  Whatever the collaborators answer, the handler leaves the
    message and the code of the error object as they were, and the
    status, the status text and the body of its response; it writes
    nothing to the object unless it reissues a request, and then
    [error.config] is the very configuration that it reissued. *)
Theorem X10_error_object_frame w axiosInstance f error :
  AxiosError.message (errorAfter (perform w (handler' axiosInstance f error)).2)
    = AxiosError.message error
  /\ AxiosError.code (errorAfter (perform w (handler' axiosInstance f error)).2)
       = AxiosError.code error
  /\ AxiosResponse.status <$> AxiosError.response
       (errorAfter (perform w (handler' axiosInstance f error)).2)
       = AxiosResponse.status <$> AxiosError.response error
  /\ AxiosResponse.statusText <$> AxiosError.response
       (errorAfter (perform w (handler' axiosInstance f error)).2)
       = AxiosResponse.statusText <$> AxiosError.response error
  /\ AxiosResponse.data <$> AxiosError.response
       (errorAfter (perform w (handler' axiosInstance f error)).2)
       = AxiosResponse.data <$> AxiosError.response error
  /\ (List.filter isRequest (perform w (handler' axiosInstance f error)).1
       = [] ->
      errorAfter (perform w (handler' axiosInstance f error)).2 = error)
  /\ (forall client config,
        In (RequestIssued client config)
           (perform w (handler' axiosInstance f error)).1 ->
        AxiosError.config
          (errorAfter (perform w (handler' axiosInstance f error)).2)
          = Some config).
Proof.
  destruct (perform_cases w axiosInstance f error)
    as [-> | (a & Hm & Hp & [(E & HE & ->)
           | [(T & HT & Hc & ->) | (T & original & HT & Hc & ->)]])];
    simpl; split_and!; try done.
  - by intros ? ? [[=]|[]].
  - by intros ? ? [[=]|[]].
  - by intros client config [[=]|[[= <- <-]|[]]].
Qed.

(** ** The header of the retry, lines 70-73 *)

(** X11.  Setting the header on a configuration that already carries an
    [x-pay402] header replaces its value: attaching a token and then
    another gives what attaching the second alone gives, and the header
    names after the assignment are the names before it together with
    [x-pay402]. *)
Theorem X11_token_replaces_token (config : RequestConfig.t)
    (T1 T2 : jsstring) :
  setPay402Header (setPay402Header config T1) T2 = setPay402Header config T2
  /\ headerNames (setPay402Header config T2)
       = {[ js "x-pay402" ]} ∪ headerNames config.
Proof.
  unfold setPay402Header, headerNames. simpl. split.
  - by rewrite insert_insert_eq.
  - rewrite dom_insert_L. by destruct (RequestConfig.headers config).
Qed.

End FurtherHandler.

(** ** The leftmost occurrence of the pattern, line 44 *)

Lemma space_not_digitOrDot c : space c = true -> digitOrDot c = false.
Proof.
  intros Hs. destruct (digitOrDot c) eqn:Hd; [|done]. exfalso.
  unfold space, digitOrDot, digit in *.
  rewrite ?orb_true_iff, ?andb_true_iff, ?N.leb_le, ?N.eqb_eq in *. lia.
Qed.

Lemma digitOrDot_not_space c : digitOrDot c = true -> space c = false.
Proof.
  intros Hd. destruct (space c) eqn:Hs; [|done].
  by rewrite (space_not_digitOrDot _ Hs) in Hd.
Qed.

(** A run of characters of a class that is followed by a character outside
    the class is determined by the text. *)
Lemma class_run_unique (p : code_unit -> bool) u u' c x c' x' :
  Forall (fun y => p y = true) u -> Forall (fun y => p y = true) u' ->
  p c = false -> p c' = false ->
  u ++ c :: x = u' ++ c' :: x' -> u = u' /\ c :: x = c' :: x'.
Proof.
  intros Hu. revert u'.
  induction Hu as [|y u Hy _ IH]; intros u' Hu' Hc Hc' H.
  - destruct Hu' as [|y' u' Hy' _]; [done|].
    simpl in H. injection H as -> _. congruence.
  - destruct Hu' as [|y' u' Hy' Hu']; simpl in H.
    + injection H as <- _. congruence.
    + injection H as -> H. destruct (IH u' Hu' Hc Hc' H) as [-> ?]. done.
Qed.

(** Two occurrences that start at the same place have the same amount. *)
Lemma sendPay_anchored_unique rest ws1 amount ws2 after ws1' amount' ws2' after' :
  rest = js "Send" ++ ws1 ++ amount ++ ws2 ++ js "PAY" ++ after ->
  rest = js "Send" ++ ws1' ++ amount' ++ ws2' ++ js "PAY" ++ after' ->
  Forall (fun c => space c = true) ws1 ->
  amount <> [] -> Forall (fun c => digitOrDot c = true) amount ->
  ws2 <> [] -> Forall (fun c => space c = true) ws2 ->
  Forall (fun c => space c = true) ws1' ->
  amount' <> [] -> Forall (fun c => digitOrDot c = true) amount' ->
  ws2' <> [] -> Forall (fun c => space c = true) ws2' ->
  amount = amount'.
Proof.
  intros -> H Hws1 Hne Ham Hne2 Hws2 Hws1' Hne' Ham' Hne2' Hws2'.
  apply app_inv_head in H.
  destruct amount as [|c amount]; [done|].
  destruct amount' as [|c' amount']; [done|].
  apply Forall_cons in Ham as [Hc Ham].
  apply Forall_cons in Ham' as [Hc' Ham'].
  simpl in H.
  apply (class_run_unique space) in H as [_ H];
    auto using digitOrDot_not_space.
  injection H as <- H. f_equal.
  destruct ws2 as [|s ws2]; [done|]. destruct ws2' as [|s' ws2']; [done|].
  apply Forall_cons in Hws2 as [Hs _]. apply Forall_cons in Hws2' as [Hs' _].
  simpl in H.
  by apply (class_run_unique digitOrDot) in H as [-> _];
    auto using space_not_digitOrDot.
Qed.

Lemma exec_unfold r s :
  exec r s
  = match matchAt r s with
    | Some caps => Some caps
    | None => match s with [] => None | _ :: s' => exec r s' end
    end.
Proof. by destruct s. Qed.

Lemma exec_skip r before rest :
  (forall k, (k < length before)%nat ->
             matchAt r (drop k (before ++ rest)) = None) ->
  exec r (before ++ rest) = exec r rest.
Proof.
  induction before as [|b before IH]; intros H; [done|].
  assert (matchAt r ((b :: before) ++ rest) = None) as H0
    by (apply (H 0%nat); simpl; lia).
  rewrite exec_unfold, H0. simpl.
  apply IH. intros k Hk. apply (H (S k)). simpl. lia.
Qed.

Lemma matchAt_sendPay_sound rest caps :
  matchAt sendPay rest = Some caps ->
  exists amount, caps = Some amount /\ sendPayAt rest [] amount.
Proof.
  unfold matchAt.
  intros (w & after & c' & -> & Hsem & [= <-])%run_sound.
  apply sendPay_sem in Hsem
    as (ws1 & amount & ws2 & -> & -> & ? & ? & ? & ? & ? & ?).
  exists amount. split; [done|]. exists ws1, ws2, after.
  split_and!; auto. rewrite app_nil_l. by rewrite <- !app_assoc.
Qed.

Lemma matchAt_sendPay_complete rest amount :
  sendPayAt rest [] amount -> matchAt sendPay rest = Some (Some amount).
Proof.
  intros (ws1 & ws2 & after & Hrest & Hne1 & Hws1 & Hne & Ham & Hne2 & Hws2).
  rewrite app_nil_l in Hrest.
  assert (is_Some (matchAt sendPay rest)) as [caps Hcaps].
  { rewrite Hrest.
    replace (js "Send" ++ ws1 ++ amount ++ ws2 ++ js "PAY" ++ after)
      with ((js "Send" ++ ws1 ++ amount ++ ws2 ++ js "PAY") ++ after)
      by (by rewrite <- !app_assoc).
    eapply (run_complete sendPay _ None (Some amount)); [|by simpl].
    apply sendPay_sem. eauto 12. }
  rewrite Hcaps.
  apply matchAt_sendPay_sound in Hcaps
    as (amount' & -> & ws1' & ws2' & after' & Hrest' & ? & ? & ? & ? & ? & ?).
  rewrite app_nil_l in Hrest'.
  by rewrite (sendPay_anchored_unique rest ws1' amount' ws2' after'
                ws1 amount ws2 after).
Qed.

(** X12.  When the description has several occurrences of the pattern,
    the amount of the option in currency [PAY] is that of the leftmost
    one: an occurrence before which none starts gives the amount. *)
Theorem X12_leftmost_occurrence_is_parsed
    (a : Pay402Accept.t) (before amount : jsstring) :
  sendPayAt (Pay402Accept.description a) before amount ->
  (forall before' amount',
      (length before' < length before)%nat ->
      ~ sendPayAt (Pay402Accept.description a) before' amount') ->
  payOption a
    = [ PaymentOption.mk amount (js "PAY") (Pay402Accept.payTo a) ].
Proof.
  intros Hat Hleft. apply payOption_parsed.
  destruct Hat as (ws1 & ws2 & after & Hd & Hocc).
  set (rest := js "Send" ++ ws1 ++ amount ++ ws2 ++ js "PAY" ++ after) in *.
  assert (forall k, (k < length before)%nat ->
            matchAt sendPay (drop k (before ++ rest)) = None) as Hnone.
  { intros k Hk.
    destruct (matchAt sendPay (drop k (before ++ rest))) as [caps|] eqn:Hm;
      [|done].
    apply matchAt_sendPay_sound in Hm
      as (amount' & _ & ws1' & ws2' & after' & Hdrop & Hocc').
    destruct (Hleft (take k (before ++ rest)) amount').
    - rewrite length_take, length_app. lia.
    - exists ws1', ws2', after'. split; [|done].
      rewrite Hd. rewrite app_nil_l in Hdrop. rewrite <- Hdrop.
      by rewrite take_drop. }
  rewrite Hd, (exec_skip _ _ _ Hnone), exec_unfold.
  rewrite (matchAt_sendPay_complete rest amount); [done|].
  by exists ws1, ws2, after.
Qed.

(** ** Setting up twice, lines 6-90 *)

Section SetupTwice.
Context {Resp Exn Callback Wallet : Type}.
Variable withPaymentInterceptor :
  instance -> Wallet -> registry Resp Exn Callback
  -> registry Resp Exn Callback.

(** X13.  The setup does not look at what is registered already: with a
    fallback that only adds interceptors to the instance, a second setup
    on the same instance leaves the interceptor of the first setup in
    place and registers another one after it, so that the instance then
    has two of them. *)
Theorem X13_second_setup_registers_again
    (axiosInstance : instance) (sign1 sign2 : Callback)
    (wallet1 wallet2 : Wallet) (clients : registry Resp Exn Callback) :
  (forall wallet c,
      exists added,
        withPaymentInterceptor axiosInstance wallet c axiosInstance
          = c axiosInstance ++ added) ->
  exists added1 added2,
    (withPay402Interceptor withPaymentInterceptor axiosInstance sign2 wallet2
       (withPay402Interceptor withPaymentInterceptor axiosInstance sign1
          wallet1 clients).1).1 axiosInstance
    = clients axiosInstance
      ++ added1 ++ [ownInterceptor axiosInstance sign1]
      ++ added2 ++ [ownInterceptor axiosInstance sign2].
Proof.
  intros Happend. unfold withPay402Interceptor. simpl.
  destruct (Happend wallet1 clients) as [added1 H1].
  destruct (Happend wallet2
              (use axiosInstance (ownInterceptor axiosInstance sign1)
                 (withPaymentInterceptor axiosInstance wallet1 clients)))
    as [added2 H2].
  exists added1, added2. unfold use at 1. rewrite decide_True by done.
  rewrite H2. unfold use. rewrite decide_True by done. rewrite H1.
  by rewrite <- !app_assoc.
Qed.

End SetupTwice.

(** ** Retries through the instance, lines 20 and 62-75 *)

Section Loop.
Context {Resp PayerExn Callback : Type}.
Variable payerAnswers :
  Callback -> list PaymentOption.t -> jsstring -> settled jsstring PayerExn.

(** X14.  Nothing in the handler marks a request as retried or counts the
    retries.  When a reissued request comes back to the handler, as it
    does on an instance that has the handler as its response interceptor,
    a server that answers one matched 402 after another is paid for each
    of them: [n] such answers followed by a success make [n] calls of a
    payer that resolves and [n] reissued requests, and the first request
    resolves with that success. *)
Theorem X14_pays_for_every_402
    (f : Callback) (axiosInstance : instance)
    (challenge : RequestConfig.t -> AxiosError.t)
    (a : Pay402Accept.t) (T : jsstring) (response : Resp) (n : nat)
    (config : RequestConfig.t) :
  (forall c, AxiosError.config (challenge c) = Some c) ->
  (forall c, matched402 (challenge c) a) ->
  pricing a <> [] ->
  payerAnswers f (pricing a) (Pay402Accept.resource a) = Resolved T ->
  exists trace,
    requestThrough payerAnswers
      (replicate n (fun c => Rejected (challenge c))
       ++ [fun _ => Resolved response])
      f axiosInstance config
    = Some (trace, Resolved response)
    /\ length (List.filter isSign trace) = n
    /\ length (List.filter isRequest trace) = n.
Proof.
  intros Hconfig Hm Hp HT. revert config.
  induction n as [|n IH]; intros config; simpl.
  - exists []. auto.
  - rewrite (handler_matched axiosInstance f (challenge config) a (Hm config) Hp).
    simpl. rewrite HT. simpl. rewrite Hconfig. simpl.
    destruct (IH (setPay402Header config T)) as (trace & -> & Hs & Hr).
    simpl. exists (SignCalled f (pricing a) (Pay402Accept.resource a)
                   :: RequestIssued axiosInstance (setPay402Header config T)
                   :: trace ++ []).
    rewrite app_nil_r. split; [done|]. cbn. split; f_equal; assumption.
Qed.

End Loop.

(** ** The further properties on concrete scenarios *)

Import MoreScenarios.

Lemma matched_payOnly : matched402 errorPayOnly acceptPayOnly.
Proof. eexists. split_and!; reflexivity. Defined.

Lemma matched_assetOnly : matched402 errorAssetOnly acceptAssetOnly.
Proof. eexists. split_and!; reflexivity. Defined.

Lemma no_occurrence_assetOnly amount :
  ~ sendPayOccurrence (Pay402Accept.description acceptAssetOnly) amount.
Proof.
  intros [caps Hc]%exec_sendPay_complete. vm_compute in Hc. discriminate.
Defined.

Lemma X1_witness :
  exists d before after,
    Some (Pay402Response.mk 1 (js "X-PAYMENT header is required")
            (Some [acceptB; acceptA; acceptEmptyName])) = Some d
    /\ Pay402Response.accepts d = Some (before ++ acceptA :: after)
    /\ Forall (fun b => marked b = false) before
    /\ marked acceptA = true.
Proof.
  apply (X1_selected_entry_is_first_marked
           (Some (Pay402Response.mk 1 (js "X-PAYMENT header is required")
                    (Some [acceptB; acceptA; acceptEmptyName]))) acceptA).
  reflexivity.
Defined.

Lemma X2_witness :
  acceptOption
    (Some (Pay402Response.mk 1 (js "X-PAYMENT header is required")
             (Some [acceptB]))) = None.
Proof.
  apply (proj2 (X2_no_selection_iff_no_marker
                  (Some (Pay402Response.mk 1
                           (js "X-PAYMENT header is required")
                           (Some [acceptB]))))).
  intros d accepts [= <-] [= <-]. repeat constructor.
Defined.

Lemma X3_witness :
  (length (pricing acceptA) <= 2)%nat
  /\ forall o, In o (pricing acceptA) ->
       PaymentOption.payTo o = payToA
       /\ PaymentOption.amount o <> []
       /\ PaymentOption.currency o <> [].
Proof. exact (X3_options_well_formed acceptA). Defined.

Lemma X4_witness : pricing acceptAssetOnly <> [].
Proof.
  intros H. apply (proj1 (X4_no_option_iff acceptAssetOnly)) in H as [_ H].
  by destruct H.
Defined.

Lemma X5_witness :
  firstCall (handlerZ 0 tt errorPayOnly) =
    Some ([ PaymentOption.mk (js "2.5") (js "PAY") payToA ], js "/pay-only").
Proof.
  apply (X5_pay_option_alone 0 tt errorPayOnly acceptPayOnly (js "2.5"));
    [apply matched_payOnly | reflexivity | by right].
Defined.

Lemma X6_witness :
  firstCall (handlerZ 0 tt errorAssetOnly) =
    Some ([ PaymentOption.mk (js "14000") usdc payToA ], js "/asset-only").
Proof.
  apply (X6_asset_option_alone 0 tt errorAssetOnly acceptAssetOnly);
    [apply matched_assetOnly | apply no_occurrence_assetOnly
    | discriminate | discriminate | reflexivity].
Defined.

Lemma X7_witness :
  (exists a,
     matched402 error500 a /\ pricing a <> []
     /\ firstCall (handlerZ 0 tt error500)
          = Some (pricing a, Pay402Accept.resource a))
  \/ ((forall a, matched402 error500 a -> pricing a = [])
      /\ forall w,
           perform w (handlerZ 0 tt error500)
             = ([], mkOutcome (Rejected OriginalError) error500)).
Proof. exact (X7_payer_called_iff_option 0 tt error500). Defined.

Lemma X8_witness :
  0 = 0
  /\ exists a original T,
       matched402 errorA a
       /\ AxiosError.config errorA = Some original
       /\ payer paying tt (pricing a) (Pay402Accept.resource a) = Resolved T
       /\ setPay402Header configA (js "valid-tx-id")
            = setPay402Header original T
       /\ (perform paying (handlerZ 0 tt errorA)).1
            = [ SignCalled tt (pricing a) (Pay402Accept.resource a);
                RequestIssued 0
                  (setPay402Header configA (js "valid-tx-id")) ].
Proof.
  apply (X8_reissue_follows_payment paying 0 tt errorA 0
           (setPay402Header configA (js "valid-tx-id"))).
  right. left. reflexivity.
Defined.

Lemma X9_witness :
  exists config,
    In (RequestIssued 0 config) (perform paying (handlerZ 0 tt errorA)).1
    /\ transport paying 0 config = Resolved 200%Z.
Proof.
  apply (X9_resolves_only_with_retry paying 0 tt errorA 200%Z). reflexivity.
Defined.

Lemma X10_witness :
  errorAfter (perform declining (handlerZ 0 tt errorA)).2 = errorA.
Proof.
  apply (X10_error_object_frame declining 0 tt errorA). reflexivity.
Defined.

Lemma X11_witness :
  setPay402Header configPaid (js "valid-tx-id")
    = setPay402Header configA (js "valid-tx-id").
Proof.
  exact (proj1 (X11_token_replaces_token configA (js "old-tx-id")
                  (js "valid-tx-id"))).
Defined.

Lemma X12_witness :
  payOption acceptTwice = [ PaymentOption.mk (js "1") (js "PAY") payToA ].
Proof.
  apply (X12_leftmost_occurrence_is_parsed acceptTwice [] (js "1")).
  - exists (js " "), (js " "), (js " or Send 2 PAY").
    split_and!; try reflexivity; try discriminate; repeat constructor.
  - intros before' amount' H. simpl in H. lia.
Defined.

Lemma X13_witness :
  exists added1 added2,
    (withPay402Interceptor fallback 0 tt tt
       (withPay402Interceptor fallback 0 tt tt (fun _ => [])).1).1 0
    = [] ++ added1 ++ [ownInterceptor 0 tt]
         ++ added2 ++ [ownInterceptor 0 tt].
Proof.
  apply (X13_second_setup_registers_again fallback 0 tt tt tt tt
           (fun _ => [])).
  intros wallet c. exists [fallbackInterceptor]. reflexivity.
Defined.

Lemma X14_witness :
  exists trace,
    requestThrough Insisting.payerPays Insisting.server tt 0 configA
    = Some (trace, Resolved 200%Z)
    /\ length (List.filter isSign trace) = 2%nat
    /\ length (List.filter isRequest trace) = 2%nat.
Proof.
  apply (X14_pays_for_every_402 Insisting.payerPays tt 0
           (fun c => failure (Some c) 402 [acceptA]) acceptA
           (js "valid-tx-id") 200%Z 2 configA);
    [reflexivity | | apply pricing_A | reflexivity].
  intros c. eexists. split_and!; reflexivity.
Defined.
